(** * ogrinfo: opening the data source and reporting on it

    A shallow embedding of [main] of [apps/ogrinfo_bin.cpp] from the point
    where the command line has been parsed (the "Open dataset" block) up to
    [exit(nRet)], and the properties of its access negotiation: which flag
    words reach [GDALDataset::Open], when a second open is attempted, what
    is printed and what the exit status is.

    The calls into the GDAL library ([GDALIdentifyDriverEx],
    [GDALDataset::Open], [GDALVectorInfo], the destructor of the dataset)
    are parameters of the development: every theorem holds for every
    behaviour of the library, including a library whose answers depend on
    the calls made before. *)

From Stdlib Require Import ZArith String Ascii List Bool Lia.
From ExtLib Require Import Structures.Monad Structures.MonadState.
From ExtLib Require Import Data.Monads.StateMonad.
Import ListNotations.
Import MonadNotation.
Local Open Scope monad_scope.
Local Open Scope string_scope.
Local Open Scope Z_scope.

Set Implicit Arguments.

(** ** Open flags *)

(** The [GDAL_OF_*] macros come from [gdal.h]; [main] only combines them
    with [|] and passes the result on.  They are kept abstract: an
    instance of this class is a choice of the four values.  [nFlags] is an
    [int]; [|] of values that fit an [int] fits it, so the word is a [Z]
    and [|] is [Z.lor]. *)
Class GDALOpenFlags : Type := {
  GDAL_OF_READONLY : Z;
  GDAL_OF_UPDATE : Z;
  GDAL_OF_VECTOR : Z;
  GDAL_OF_VERBOSE_ERROR : Z
}.

(** The values the macros have in GDAL's public header, where read-only
    is the absence of the update bit.  The concrete runs below use them. *)
Definition gdal_h : GDALOpenFlags :=
  {| GDAL_OF_READONLY := 0x00;
     GDAL_OF_UPDATE := 0x01;
     GDAL_OF_VECTOR := 0x04;
     GDAL_OF_VERBOSE_ERROR := 0x40 |}.

(** The capability names of an open flag set, and the word a set of names
    stands for: the [|] of the macros' values. *)
Inductive OpenFlag : Type := Vector | ReadOnly | Update | VerboseError.

Definition OpenFlag_eqb (a b : OpenFlag) : bool :=
  match a, b with
  | Vector, Vector | ReadOnly, ReadOnly
  | Update, Update | VerboseError, VerboseError => true
  | _, _ => false
  end.

Definition mem (a : OpenFlag) (s : list OpenFlag) : bool :=
  existsb (OpenFlag_eqb a) s.

Section Flags.
Context {OF : GDALOpenFlags}.

Definition flag_value (a : OpenFlag) : Z :=
  match a with
  | Vector => GDAL_OF_VECTOR
  | ReadOnly => GDAL_OF_READONLY
  | Update => GDAL_OF_UPDATE
  | VerboseError => GDAL_OF_VERBOSE_ERROR
  end.

Definition encode (s : list OpenFlag) : Z :=
  fold_right (fun a acc => Z.lor (flag_value a) acc) 0 s.

(** A flag set names the vector capability and exactly one access mode. *)
Definition one_access (s : list OpenFlag) : bool :=
  mem Vector s && xorb (mem ReadOnly s) (mem Update s).

(** What the bit-level statements need of the four values: the update,
    vector and verbose-error masks are not empty and no two of the four
    masks overlap.  [GDAL_OF_READONLY] may be zero, as it is in [gdal.h]. *)
Definition disjointb (a b : Z) : bool := Z.land a b =? 0.

Definition flags_wfb : bool :=
  negb (GDAL_OF_UPDATE =? 0) && negb (GDAL_OF_VECTOR =? 0)
  && negb (GDAL_OF_VERBOSE_ERROR =? 0)
  && disjointb GDAL_OF_UPDATE GDAL_OF_VECTOR
  && disjointb GDAL_OF_UPDATE GDAL_OF_VERBOSE_ERROR
  && disjointb GDAL_OF_VECTOR GDAL_OF_VERBOSE_ERROR
  && disjointb GDAL_OF_READONLY GDAL_OF_UPDATE
  && disjointb GDAL_OF_READONLY GDAL_OF_VECTOR
  && disjointb GDAL_OF_READONLY GDAL_OF_VERBOSE_ERROR.

(** [has c f]: every bit of the mask [c] is set in the word [f];
    [lacks c f]: none is. *)
Definition has (c f : Z) : Prop := Z.land f c = c.
Definition lacks (c f : Z) : Prop := Z.land f c = 0.

(** [same_outside m a b]: the words [a] and [b] agree on every bit that
    is not in the mask [m]. *)
Definition same_outside (m a b : Z) : Prop := Z.ldiff a m = Z.ldiff b m.

(** The two access macros together. *)
Definition access_mask : Z := Z.lor GDAL_OF_READONLY GDAL_OF_UPDATE.

(** [flags_wfb] as the facts the proofs use. *)
Record flags_wf : Prop := {
  update_nonzero : GDAL_OF_UPDATE <> 0;
  vector_nonzero : GDAL_OF_VECTOR <> 0;
  verbose_nonzero : GDAL_OF_VERBOSE_ERROR <> 0;
  update_vector : lacks GDAL_OF_UPDATE GDAL_OF_VECTOR;
  update_verbose : lacks GDAL_OF_UPDATE GDAL_OF_VERBOSE_ERROR;
  update_readonly : lacks GDAL_OF_UPDATE GDAL_OF_READONLY;
  verbose_update : lacks GDAL_OF_VERBOSE_ERROR GDAL_OF_UPDATE;
  verbose_vector : lacks GDAL_OF_VERBOSE_ERROR GDAL_OF_VECTOR;
  verbose_readonly : lacks GDAL_OF_VERBOSE_ERROR GDAL_OF_READONLY
}.
End Flags.

(** ** The options of the binary *)

(** The fields of [GDALVectorInfoOptionsForBinary] that [main] reads after
    the command line is parsed. *)
Record GDALVectorInfoOptionsForBinary : Type := {
  osFilename : string;
  bVerbose : bool;
  bReadOnly : bool;
  bUpdate : bool;
  osSQLStatement : string;
  aosOpenOptions : list string
}.

(** [std::string::empty]. *)
Definition empty (s : string) : bool :=
  match s with
  | EmptyString => true
  | String _ _ => false
  end.

(** The access intent the two switches stand for; both set is the
    combination the argument parser is expected to refuse. *)
Inductive AccessIntent : Type := Unspecified | ForceReadOnly | ForceUpdate.

Definition intent (o : GDALVectorInfoOptionsForBinary) : option AccessIntent :=
  match bReadOnly o, bUpdate o with
  | false, false => Some Unspecified
  | true, false => Some ForceReadOnly
  | false, true => Some ForceUpdate
  | true, true => None
  end.

(** ** Formatted output *)

Definition LF : string := String (ascii_of_nat 10) EmptyString.

(** [printf] with [%s] as the only conversion: each [%s] takes the next
    argument, a missing one prints nothing. *)
Fixpoint sprintf (fmt : string) (args : list string) : string :=
  match fmt with
  | EmptyString => EmptyString
  | String "%"%char (String "s"%char rest) =>
      match args with
      | [] => sprintf rest []
      | a :: args' => a ++ sprintf rest args'
      end
  | String c rest => String c (sprintf rest args)
  end.

Fixpoint count_LF (s : string) : nat :=
  match s with
  | EmptyString => 0%nat
  | String c rest =>
      ((if Ascii.eqb c (ascii_of_nat 10) then 1 else 0) + count_LF rest)%nat
  end.

(** The line ends in all of what was written to a stream. *)
Definition line_ends (written : list string) : nat :=
  list_sum (map count_LF written).

Definition had_to_open_read_only : string :=
  "Had to open data source read-only." ++ LF.

Definition unable_to_open : string :=
  "ogrinfo failed - unable to open '%s'." ++ LF.

(** ** The process and its environment *)

(** The three places where [main] calls [GDALDataset::Open]. *)
Inductive OpenSite : Type := PrimaryOpen | RetryUpdate | RetryReadOnly.

Definition OpenSite_eqb (a b : OpenSite) : bool :=
  match a, b with
  | PrimaryOpen, PrimaryOpen | RetryUpdate, RetryUpdate
  | RetryReadOnly, RetryReadOnly => true
  | _, _ => false
  end.

(** The part of the GDAL library that [main] calls, as an interface: an
    instance is one possible library together with the world it acts
    on.  Each call takes the world as it is and returns the world as the
    call leaves it. *)
Class GDALLibrary : Type := {
  (** Everything outside the process that the library calls read or
      change: the file system, the driver registry, connections. *)
  World : Type;
  (** A non-null [GDALDataset *]. *)
  Dataset : Type;
  (** The opaque [GDALVectorInfoOptions] built by the argument parser. *)
  GDALVectorInfoOptions : Type;
  (** [GDALIdentifyDriverEx(path, flags, nullptr, nullptr)]: whether the
      driver handle returned is non-null. *)
  GDALIdentifyDriverEx : string -> Z -> World -> bool * World;
  (** [GDALDataset::Open(path, flags, nullptr, open_options, nullptr)]:
      [None] is the null pointer. *)
  GDALDataset_Open :
    string -> Z -> list string -> World -> option Dataset * World;
  (** [GDALVectorInfo(handle, options)]: [None] is the null pointer. *)
  GDALVectorInfo :
    Dataset -> GDALVectorInfoOptions -> World -> option string * World;
  (** [delete poDS] on a non-null dataset. *)
  GDALDataset_delete : Dataset -> World -> World
}.

Section Ogrinfo.
Context {OF : GDALOpenFlags} {G : GDALLibrary}.

Record OpenCall : Type := {
  oc_site : OpenSite;
  oc_path : string;
  oc_flags : Z;
  oc_options : list string;
  oc_result : option Dataset
}.

(** What [main] does that can be seen from outside, in order. *)
Inductive Event : Type :=
| EvIdentify (path : string) (flags : Z) (found : bool)
| EvOpen (c : OpenCall)
| EvVectorInfo (ds : Dataset) (output : option string)
| EvPrintf (fmt : string) (args : list string)
| EvFprintfStderr (fmt : string) (args : list string)
| EvDelete (ds : Dataset).

Record Process : Type := {
  world : World;
  trace : list Event
}.

Definition M : Type -> Type := state Process.

Definition step {A : Type} (call : World -> A * World) (ev : A -> Event)
  : M A :=
  p <- get ;;
  let r := call (world p) in
  put {| world := snd r; trace := trace p ++ [ev (fst r)] |} ;;
  ret (fst r).

Definition emit (e : Event) : M unit :=
  p <- get ;;
  put {| world := world p; trace := trace p ++ [e] |}.

Definition identify (path : string) (flags : Z) : M bool :=
  step (GDALIdentifyDriverEx path flags) (EvIdentify path flags).

Definition open (site : OpenSite) (path : string) (flags : Z)
    (oo : list string) : M (option Dataset) :=
  step (GDALDataset_Open path flags oo)
       (fun r => EvOpen {| oc_site := site; oc_path := path;
                           oc_flags := flags; oc_options := oo;
                           oc_result := r |}).

Definition vector_info (ds : Dataset) (opts : GDALVectorInfoOptions)
  : M (option string) :=
  step (GDALVectorInfo ds opts) (EvVectorInfo ds).

Definition printf (fmt : string) (args : list string) : M unit :=
  emit (EvPrintf fmt args).

Definition fprintf_stderr (fmt : string) (args : list string) : M unit :=
  emit (EvFprintfStderr fmt args).

Definition delete (poDS : option Dataset) : M unit :=
  match poDS with
  | None => ret tt
  | Some ds =>
      step (fun w => (tt, GDALDataset_delete ds w)) (fun _ => EvDelete ds)
  end.

Definition is_null {A : Type} (p : option A) : bool :=
  match p with
  | None => true
  | Some _ => false
  end.

(** ** [main], from "Open data source" to [exit(nRet)]

    The build without [__AFL_HAVE_MANUAL_CONTROL]: the block runs once.
    The result is the argument of [exit].  The calls between [delete
    poDS] and [exit] free the options and the argument list and shut the
    library down ([GDALDumpOpenDatasets] lists on standard error the
    datasets still open at that point, if any); they are not part of the
    model, and neither is what the library itself prints while it runs. *)
Definition main (psOptionsForBinary : GDALVectorInfoOptionsForBinary)
    (psOptions : GDALVectorInfoOptions) : M Z :=
  let nFlags := GDAL_OF_VECTOR in
  let bMayRetryUpdateMode := false in
  '(nFlags, bMayRetryUpdateMode) <-
    (if bUpdate psOptionsForBinary then
       ret (Z.lor nFlags (Z.lor GDAL_OF_UPDATE GDAL_OF_VERBOSE_ERROR),
            bMayRetryUpdateMode)
     else if bReadOnly psOptionsForBinary then
       ret (Z.lor nFlags (Z.lor GDAL_OF_READONLY GDAL_OF_VERBOSE_ERROR),
            bMayRetryUpdateMode)
     else if empty (osSQLStatement psOptionsForBinary) then
       let nFlags := Z.lor nFlags GDAL_OF_READONLY in
       found <- identify (osFilename psOptionsForBinary) GDAL_OF_VECTOR ;;
       if found : bool then ret (nFlags, true)
       else
         (* And an error Will be emitted *)
         ret (Z.lor nFlags GDAL_OF_VERBOSE_ERROR, bMayRetryUpdateMode)
     else
       ret (Z.lor nFlags (Z.lor GDAL_OF_UPDATE GDAL_OF_VERBOSE_ERROR),
            bMayRetryUpdateMode)) ;;
  poDS <- open PrimaryOpen (osFilename psOptionsForBinary) nFlags
               (aosOpenOptions psOptionsForBinary) ;;
  poDS <-
    (if is_null poDS && negb (bReadOnly psOptionsForBinary)
        && negb (bUpdate psOptionsForBinary) then
       if empty (osSQLStatement psOptionsForBinary) && bMayRetryUpdateMode
       then
         (* In some cases (empty geopackage for example), opening in
            read-only mode fails, so retry in update mode *)
         open RetryUpdate (osFilename psOptionsForBinary)
              (Z.lor GDAL_OF_UPDATE GDAL_OF_VECTOR)
              (aosOpenOptions psOptionsForBinary)
       else if negb (empty (osSQLStatement psOptionsForBinary)) then
         poDS <- open RetryReadOnly (osFilename psOptionsForBinary)
                      (Z.lor GDAL_OF_READONLY GDAL_OF_VECTOR)
                      (aosOpenOptions psOptionsForBinary) ;;
         (if negb (is_null poDS) && bVerbose psOptionsForBinary then
            printf had_to_open_read_only []
          else ret tt) ;;
         ret poDS
       else ret poDS
     else ret poDS) ;;
  nRet <-
    match poDS with
    | None =>
        fprintf_stderr unable_to_open [osFilename psOptionsForBinary] ;;
        ret 1
    | Some ds =>
        pszGDALVectorInfoOutput <- vector_info ds psOptions ;;
        match pszGDALVectorInfoOutput with
        | Some text => printf "%s" [text] ;; ret 0
        | None => ret 1
        end
    end ;;
  delete poDS ;;
  ret nRet.

(** A run of [main] in a world, from an empty trace. *)
Definition run (o : GDALVectorInfoOptionsForBinary)
    (po : GDALVectorInfoOptions) (w : World) : Z * Process :=
  runState (main o po) {| world := w; trace := [] |}.

Definition exit_code (r : Z * Process) : Z := fst r.
Definition events (r : Z * Process) : list Event := trace (snd r).

(** ** Reading a trace *)

Definition open_calls (t : list Event) : list OpenCall :=
  flat_map (fun e => match e with EvOpen c => [c] | _ => [] end) t.

Definition probes (t : list Event) : list (string * Z * bool) :=
  flat_map (fun e => match e with
                     | EvIdentify path flags found => [(path, flags, found)]
                     | _ => []
                     end) t.

Definition is_fallback (c : OpenCall) : bool :=
  negb (OpenSite_eqb (oc_site c) PrimaryOpen).

(** The open calls after the primary one. *)
Definition fallbacks (t : list Event) : list OpenCall :=
  filter is_fallback (open_calls t).

(** What [main] itself writes to the standard error and output streams
    with [fprintf] and [printf]. *)
Definition stderr_text (t : list Event) : list string :=
  flat_map (fun e => match e with
                     | EvFprintfStderr fmt args => [sprintf fmt args]
                     | _ => []
                     end) t.

Definition stdout_text (t : list Event) : list string :=
  flat_map (fun e => match e with
                     | EvPrintf fmt args => [sprintf fmt args]
                     | _ => []
                     end) t.

(** The last open call made, whose result is the [poDS] that [main]
    goes on with. *)
Definition final_open (t : list Event) : option OpenCall :=
  last (map Some (open_calls t)) None.

Definition final_dataset (t : list Event) : option Dataset :=
  match final_open t with
  | Some c => oc_result c
  | None => None
  end.

(** The [degraded] of the negotiation result: [main] keeps no such
    variable; the dataset it goes on with is the one returned by the
    read-only retry. *)
Definition degraded (t : list Event) : bool :=
  match final_open t with
  | Some c => OpenSite_eqb (oc_site c) RetryReadOnly
              && negb (is_null (oc_result c))
  | None => false
  end.

(** The advisory [printf] of [main], told apart from the report, which
    is printed through the format ["%s"]. *)
Definition is_advisory (e : Event) : bool :=
  match e with
  | EvPrintf fmt [] => String.eqb fmt had_to_open_read_only
  | _ => false
  end.

Definition advisory_count (t : list Event) : nat :=
  List.length (filter is_advisory t).

(** The calls of [GDALVectorInfo]: the dataset passed and what came
    back. *)
Definition reports (t : list Event) : list (Dataset * option string) :=
  flat_map (fun e => match e with
                     | EvVectorInfo ds output => [(ds, output)]
                     | _ => []
                     end) t.

(** ** Three statements that do not hold of [main] as they stand *)

(** The exit status is 1 after a failed open, with exactly one line on
    standard error, and a run with status 0 leaves standard error
    empty. *)
Definition one_diagnostic_line (o : GDALVectorInfoOptionsForBinary)
    (po : GDALVectorInfoOptions) (w : World) : Prop :=
  let r := run o po w in
  let t := events r in
  (final_dataset t = None ->
   exit_code r = 1 /\ line_ends (stderr_text t) = 1%nat)
  /\ (exit_code r = 0 -> stderr_text t = []).

(** The advisory is printed in every run that ends on the dataset of
    the read-only retry. *)
Definition advisory_always_surfaced (o : GDALVectorInfoOptionsForBinary)
    (po : GDALVectorInfoOptions) (w : World) : Prop :=
  let t := events (run o po w) in
  degraded t = true -> (1 <= advisory_count t)%nat.

(** Every retry passes the path and the open options of the primary
    call, leaves the verbose-error bit out, and its flag word differs
    from the primary one in the access bits only. *)
Definition retry_differs_in_access_only
    (o : GDALVectorInfoOptionsForBinary) (po : GDALVectorInfoOptions)
    (w : World) : Prop :=
  let t := events (run o po w) in
  forall c1 c2,
    hd_error (open_calls t) = Some c1 ->
    In c2 (fallbacks t) ->
    oc_path c2 = oc_path c1
    /\ oc_options c2 = oc_options c1
    /\ lacks GDAL_OF_VERBOSE_ERROR (oc_flags c2)
    /\ same_outside access_mask (oc_flags c2) (oc_flags c1).

End Ogrinfo.

(** ** Concrete libraries and runs *)

(** A small library for concrete runs: the world counts the library calls
    made so far, a dataset remembers the path and the flag word it was
    opened with, [recognized] is the answer of the probe, [can_open] says
    which flag words the source can be opened with and [can_report]
    whether the report can be produced. *)
Definition toy_library (recognized : bool) (can_open : Z -> bool)
    (can_report : bool) : GDALLibrary :=
  {| World := nat;
     Dataset := string * Z;
     GDALVectorInfoOptions := unit;
     GDALIdentifyDriverEx := fun _ _ w => (recognized, S w);
     GDALDataset_Open := fun path flags _ w =>
       (if can_open flags then Some (path, flags) else None, S w);
     GDALVectorInfo := fun ds _ w =>
       (if can_report then Some ("INFO: " ++ fst ds ++ LF) else None, S w);
     GDALDataset_delete := fun _ w => S w |}.

(** With the header's values the update bit is bit 0. *)
Definition update_only (flags : Z) : bool := Z.testbit flags 0.
Definition read_only_only (flags : Z) : bool := negb (Z.testbit flags 0).
Definition never (flags : Z) : bool := false.
Definition always (flags : Z) : bool := true.

Definition options (path : string) (verbose ro upd : bool) (sql : string)
    (oo : list string) : GDALVectorInfoOptionsForBinary :=
  {| osFilename := path; bVerbose := verbose; bReadOnly := ro;
     bUpdate := upd; osSQLStatement := sql; aosOpenOptions := oo |}.

(** A recognized container that is still empty: it opens for update only. *)
Definition empty_container : GDALLibrary := toy_library true update_only true.
(** A source on a read-only mount: it opens read-only only. *)
Definition read_only_mount : GDALLibrary :=
  toy_library true read_only_only true.
(** A path that no driver recognizes and nothing opens. *)
Definition unrecognized : GDALLibrary := toy_library false never true.
(** A source that opens in either mode, without and with a report. *)
Definition plain_source : GDALLibrary := toy_library true always true.
Definition unreadable_source : GDALLibrary := toy_library true always false.

Definition no_switch (path sql : string) (verbose : bool)
  : GDALVectorInfoOptionsForBinary :=
  options path verbose false false sql ["LIST_ALL_TABLES=YES"].

(** A run with the values of [gdal.h], from a world with no call made. *)
Abbreviation run_in lib o := (@run gdal_h lib o tt 0%nat) (only parsing).

(** The flag words and results of the open calls of a run. *)
Definition opened (lib : GDALLibrary) (t : list (@Event lib))
  : list (OpenSite * Z * bool) :=
  map (fun c => (oc_site c, oc_flags c, negb (is_null (oc_result c))))
      (open_calls t).

(** ** The start of [main]: command line, usage, early exits *)

From ExtLib Require Import Structures.MonadExc Structures.MonadTrans.
From ExtLib Require Import Data.Monads.EitherMonad.

(** The usage text, the format string of the first [fprintf] of [Usage]. *)
Definition usage_text : string :=
  "Usage: ogrinfo [--help] [--help-general]" ++ LF ++
  "               [-json] [-ro] [-q] [-where " ++
  "<restricted_where>|@f<ilename>]" ++ LF ++
  "               [-spat <xmin> <ymin> <xmax> <ymax>] [-geomfield " ++
  "<field>] " ++
  "[-fid <fid>]" ++ LF ++
  "               [-sql <statement>|@<filename>] [-dialect " ++
  "<sql_dialect>] " ++
  "[-al] [-rl]" ++ LF ++
  "               [-so|-features] [-fields={YES|NO}]]" ++ LF ++
  "               [-geom={YES|NO|SUMMARY|WKT|ISO_WKT}] " ++
  "[-oo <NAME>=<VALUE>]..." ++ LF ++
  "               [-nomd] [-listmdd] [-mdd {<domain>|all}]..." ++ LF ++
  "               [-nocount] [-nogeomtype] " ++
  "[[-noextent] | [-extent3D]]" ++ LF ++
  "               [-wkt_format WKT1|WKT2|<other_values>]" ++ LF ++
  "               [-fielddomain <name>]" ++ LF ++
  "               <datasource_name> [<layer> [<layer> ...]]" ++ LF.

Definition failure_format : string := LF ++ "FAILURE: %s" ++ LF.

Definition utility_version_format : string :=
  "%s was compiled against GDAL %s and is running against GDAL %s" ++ LF.

Definition no_datasource : string := "No datasource specified.".

(** What the start of [main] uses of GDAL and of the C++ runtime besides
    [GDALLibrary]: macros ([GDAL_RELEASE_NAME], [EQUAL],
    [GDAL_CHECK_VERSION]) and functions.  A call that may read or change
    the world takes it and returns it. *)
Class OGRInfoStartup {G : GDALLibrary} : Type := {
  GDAL_RELEASE_NAME : string;
  (** [EQUAL(a, b)], the string comparison macro of [cpl_port.h]. *)
  EQUAL : string -> string -> bool;
  (** [GDAL_CHECK_VERSION(argv[0])]; [argv[0]] may be the null pointer
      that ends an empty argument list. *)
  GDAL_CHECK_VERSION : option string -> World -> bool * World;
  EarlySetConfigOptions : Z -> list string -> World -> World;
  OGRRegisterAll : World -> World;
  (** [OGRGeneralCmdLineProcessor(argc, &argv, 0)]: the value returned
      and the argument list left in [argv], [None] when it is null. *)
  OGRGeneralCmdLineProcessor :
    Z -> list string -> World -> (Z * option (list string)) * World;
  GDALVersionInfo : string -> World -> string * World;
  (** [CSLAddString(list, string)]: the list returned; the list passed
      may be null. *)
  CSLAddString : option (list string) -> string -> list string;
  (** [GDALVectorInfoOptionsNew(args, psOptionsForBinary)]: the options
      returned, [None] when null, and the binary's options as the call
      leaves them. *)
  GDALVectorInfoOptionsNew :
    list string -> World ->
    (option GDALVectorInfoOptions * GDALVectorInfoOptionsForBinary) * World
}.

Section Startup.
Context {OF : GDALOpenFlags} {G : GDALLibrary} {ST : OGRInfoStartup}.

(** A computation that may end the process: [inl status] is [exit(status)]
    (or [return status] from [main]), with the process as it is then. *)
Definition ExitM : Type -> Type := eitherT Z (state Process).

Definition exit {A : Type} (status : Z) : ExitM A := raise status.

(** A library call that leaves no event of [main]'s own in the trace. *)
Definition call {A : Type} (f : World -> A * World) : ExitM A :=
  lift (p <- get ;;
        let r := f (world p) in
        put {| world := snd r; trace := trace p |} ;;
        ret (fst r)).

Definition call_ (f : World -> World) : ExitM unit :=
  call (fun w => (tt, f w)).

(** [Usage(bIsError, pszErrorMsg)]; [None] is the default [nullptr]. *)
Definition Usage {A : Type} (bIsError : bool) (pszErrorMsg : option string)
  : ExitM A :=
  lift (if bIsError then fprintf_stderr usage_text []
        else printf usage_text []) ;;
  match pszErrorMsg with
  | Some msg => lift (fprintf_stderr failure_format [msg])
  | None => ret tt
  end ;;
  exit (if bIsError then 1 else 0).

(** The loop over the arguments, from [argv[i]] on; [argv0] is [argv[0]].
    It ends the process at the first argument that is
    [--utility_version] or [--help]. *)
Fixpoint scan_arguments (argv0 : string) (rest : list string)
  : ExitM unit :=
  match rest with
  | [] => ret tt
  | a :: rest' =>
      if EQUAL a "--utility_version" then
        running <- call (GDALVersionInfo "RELEASE_NAME") ;;
        lift (printf utility_version_format
                     [argv0; GDAL_RELEASE_NAME; running]) ;;
        exit 0
      else if EQUAL a "--help" then Usage false None
      else scan_arguments argv0 rest'
  end.

(** [main(argc, argv)], whole: the start, then the block that [main]
    above models.  [argv] is the null-terminated argument array as the
    list of its strings, [argv + 1] is its tail, and [return 0] ends
    the process as [exit(0)] does.  Memory is not modelled:
    [CSLDestroy(argv)] and the allocation of [psOptionsForBinary] leave
    no mark. *)
Definition main_argc_argv (argc : Z) (argv : list string) : ExitM Z :=
  (* Check strict compilation and runtime library version as we use C++
     API. *)
  ok <- call (GDAL_CHECK_VERSION (hd_error argv)) ;;
  (if negb ok then exit 1 else ret tt) ;;
  call_ (EarlySetConfigOptions argc argv) ;;
  call_ OGRRegisterAll ;;
  '(argc, argv) <- call (OGRGeneralCmdLineProcessor argc argv) ;;
  (if argc <? 1 then exit (- argc) else ret tt) ;;
  match argv with
  | Some ((argv0 :: _) as l) => scan_arguments argv0 l
  | _ => ret tt
  end ;;
  let argv := CSLAddString argv "-stdout" in
  '(psOptions, psOptionsForBinary) <-
    call (GDALVectorInfoOptionsNew (tl argv)) ;;
  psOptions <- match psOptions with
               | None => Usage true None
               | Some psOptions => ret psOptions
               end ;;
  (if empty (osFilename psOptionsForBinary)
   then Usage true (Some no_datasource) else ret tt) ;;
  lift (main psOptionsForBinary psOptions).

(** A run of the whole program: the exit status and the process. *)
Definition run_program (argc : Z) (argv : list string) (w : World)
  : Z * Process :=
  let r := runState (unEitherT (main_argc_argv argc argv))
                    {| world := w; trace := [] |} in
  (match fst r with inl status => status | inr status => status end, snd r).

(** The world in which the general command line processor is called. *)
Definition registered (argc : Z) (argv : list string) (w : World) : World :=
  OGRRegisterAll
    (EarlySetConfigOptions argc argv
       (snd (GDAL_CHECK_VERSION (hd_error argv) w))).

(** No argument of the list is [--utility_version] or [--help]. *)
Definition no_switch_in (l : list string) : bool :=
  forallb (fun a => negb (EQUAL a "--utility_version")
                    && negb (EQUAL a "--help")) l.

(** The same for the argument list the general processor leaves, which
    may be null. *)
Definition no_switch_args (args : option (list string)) : bool :=
  match args with
  | Some l => no_switch_in l
  | None => true
  end.

End Startup.

(** ** More readings of a trace, and options with one field changed *)

Section Readings.
Context {OF : GDALOpenFlags} {G : GDALLibrary}.

(** The datasets the open calls returned, and the datasets deleted. *)
Definition obtained (t : list Event) : list Dataset :=
  flat_map (fun c => match oc_result c with
                     | Some ds => [ds]
                     | None => []
                     end) (open_calls t).

Definition deletes (t : list Event) : list Dataset :=
  flat_map (fun e => match e with EvDelete ds => [ds] | _ => [] end) t.

(** The texts [GDALVectorInfo] returned. *)
Definition report_texts (t : list Event) : list string :=
  flat_map (fun r => match snd r with
                     | Some text => [text]
                     | None => []
                     end) (reports t).

(** A trace with the advisory [printf] left out. *)
Definition without_advisory (t : list Event) : list Event :=
  filter (fun e => negb (is_advisory e)) t.

End Readings.

Definition set_bVerbose (b : bool) (o : GDALVectorInfoOptionsForBinary)
  : GDALVectorInfoOptionsForBinary :=
  {| osFilename := osFilename o; bVerbose := b; bReadOnly := bReadOnly o;
     bUpdate := bUpdate o; osSQLStatement := osSQLStatement o;
     aosOpenOptions := aosOpenOptions o |}.

Definition set_bReadOnly (b : bool) (o : GDALVectorInfoOptionsForBinary)
  : GDALVectorInfoOptionsForBinary :=
  {| osFilename := osFilename o; bVerbose := bVerbose o; bReadOnly := b;
     bUpdate := bUpdate o; osSQLStatement := osSQLStatement o;
     aosOpenOptions := aosOpenOptions o |}.

Definition set_bUpdate (b : bool) (o : GDALVectorInfoOptionsForBinary)
  : GDALVectorInfoOptionsForBinary :=
  {| osFilename := osFilename o; bVerbose := bVerbose o;
     bReadOnly := bReadOnly o; bUpdate := b;
     osSQLStatement := osSQLStatement o;
     aosOpenOptions := aosOpenOptions o |}.

(** ** A concrete start for the concrete libraries *)

(** ASCII letters compared without case, the way [EQUAL] is used. *)
Definition lower (c : ascii) : ascii :=
  let n := nat_of_ascii c in
  if ((65 <=? n) && (n <=? 90))%nat then ascii_of_nat (n + 32) else c.

Fixpoint equal_nocase (a b : string) : bool :=
  match a, b with
  | EmptyString, EmptyString => true
  | String x a', String y b' =>
      Ascii.eqb (lower x) (lower y) && equal_nocase a' b'
  | _, _ => false
  end.

(** A small option parser: [-ro], [-q], [-sql <statement>] and [-stdout]
    are understood, any other argument that starts with a dash is
    refused, and the first other argument is the data source. *)
Fixpoint toy_parse (args : list string) (o : GDALVectorInfoOptionsForBinary)
  : option GDALVectorInfoOptionsForBinary :=
  match args with
  | [] => Some o
  | a :: rest =>
      if String.eqb a "-ro" then toy_parse rest (set_bReadOnly true o)
      else if String.eqb a "-q" then toy_parse rest (set_bVerbose false o)
      else if String.eqb a "-stdout" then toy_parse rest o
      else if String.eqb a "-sql" then
        match rest with
        | stmt :: rest' =>
            toy_parse rest'
              {| osFilename := osFilename o; bVerbose := bVerbose o;
                 bReadOnly := bReadOnly o; bUpdate := bUpdate o;
                 osSQLStatement := stmt;
                 aosOpenOptions := aosOpenOptions o |}
        | [] => None
        end
      else if String.prefix "-" a then None
      else if empty (osFilename o) then
        toy_parse rest
          {| osFilename := a; bVerbose := bVerbose o;
             bReadOnly := bReadOnly o; bUpdate := bUpdate o;
             osSQLStatement := osSQLStatement o;
             aosOpenOptions := aosOpenOptions o |}
      else toy_parse rest o
  end.

Definition default_options : GDALVectorInfoOptionsForBinary :=
  options "" true false false "" [].

(** The start that goes with [toy_library]: the version check passes,
    the general processor keeps the arguments, each call counts. *)
Definition toy_startup (recognized : bool) (can_open : Z -> bool)
    (can_report : bool)
  : @OGRInfoStartup (toy_library recognized can_open can_report) :=
  @Build_OGRInfoStartup (toy_library recognized can_open can_report)
    (* GDAL_RELEASE_NAME *) "3.8.0"
    (* EQUAL *) equal_nocase
    (* GDAL_CHECK_VERSION *) (fun _ (w : nat) => (true, S w))
    (* EarlySetConfigOptions *) (fun _ _ (w : nat) => S w)
    (* OGRRegisterAll *) (fun w : nat => S w)
    (* OGRGeneralCmdLineProcessor *)
    (fun argc argv (w : nat) => ((argc, Some argv), S w))
    (* GDALVersionInfo *) (fun _ (w : nat) => ("3.8.0", S w))
    (* CSLAddString *)
    (fun l s => match l with
                | Some l => (l ++ [s])%list
                | None => [s]
                end)
    (* GDALVectorInfoOptionsNew *)
    (fun args (w : nat) =>
       (match toy_parse args default_options with
        | Some o => (Some tt, o)
        | None => (None, default_options)
        end, S w)).

(** The whole program on the read-only mount, with the header's values. *)
Definition ogrinfo_on_read_only_mount (argv : list string)
  : Z * @Process read_only_mount :=
  @run_program gdal_h read_only_mount (toy_startup true read_only_only true)
               (Z.of_nat (List.length argv)) argv 0%nat.

(** * Properties *)

(** ** Flag words *)

(** Equations between words built with [|], [&] and and-not, bit by bit. *)
Ltac bitwise :=
  apply Z.bits_inj'; intros ?n _;
  repeat first [ rewrite Z.ldiff_spec | rewrite Z.lor_spec
               | rewrite Z.land_spec | rewrite Z.bits_0 ];
  repeat match goal with
         | |- context [Z.testbit ?x ?n] => destruct (Z.testbit x n)
         end;
  reflexivity.

Section FlagFacts.
Context {OF : GDALOpenFlags}.

Lemma has_refl (c : Z) : has c c.
Proof. apply Z.land_diag. Qed.

Lemma has_lor_l (c x y : Z) : has c x -> has c (Z.lor x y).
Proof.
  unfold has; intros H. rewrite Z.land_lor_distr_l, H. bitwise.
Qed.

Lemma has_lor_r (c x y : Z) : has c x -> has c (Z.lor y x).
Proof.
  unfold has; intros H. rewrite Z.land_lor_distr_l, H. bitwise.
Qed.

(** The update retry and its primary call: vector and one access macro
    each, in either order. *)
Lemma same_outside_access (a b x : Z) :
  same_outside (Z.lor b a) (Z.lor a x) (Z.lor x b).
Proof. unfold same_outside. bitwise. Qed.

(** The read-only retry and its primary call: the primary word has the
    verbose-error macro as well. *)
Lemma same_outside_access_verbose (a b x e : Z) :
  same_outside (Z.lor (Z.lor a b) e) (Z.lor a x) (Z.lor x (Z.lor b e)).
Proof. unfold same_outside. bitwise. Qed.

Lemma lacks_lor (c x y : Z) : lacks c x -> lacks c y -> lacks c (Z.lor x y).
Proof.
  unfold lacks; intros Hx Hy.
  rewrite Z.land_lor_distr_l, Hx, Hy. reflexivity.
Qed.

Lemma has_lacks_absurd (c f : Z) : c <> 0 -> has c f -> lacks c f -> False.
Proof. unfold has, lacks; congruence. Qed.

Lemma flags_wfb_spec : flags_wfb = true -> flags_wf.
Proof.
  unfold flags_wfb, disjointb.
  rewrite !andb_true_iff, !negb_true_iff, !Z.eqb_eq, !Z.eqb_neq.
  intros [[[[[[[[H1 H2] H3] H4] H5] H6] H7] H8] H9].
  split; unfold lacks; auto; rewrite Z.land_comm; auto.
Qed.

(** [nFlags |= c] after [nFlags |= b] is [nFlags |= b | c]. *)
Lemma lor_lor (a b c : Z) : Z.lor (Z.lor a b) c = Z.lor a (Z.lor b c).
Proof. symmetry. apply Z.lor_assoc. Qed.
End FlagFacts.

Create HintDb flags.
#[export] Hint Resolve has_refl has_lor_l has_lor_r lacks_lor lor_lor
  same_outside_access same_outside_access_verbose : flags.

(** ** Formatted output *)

Lemma count_LF_app (a b : string) :
  count_LF (a ++ b) = (count_LF a + count_LF b)%nat.
Proof.
  induction a as [|c a IH]; cbn; [reflexivity|].
  rewrite IH. apply Nat.add_assoc.
Qed.

Lemma append_empty_r (s : string) : s ++ "" = s.
Proof.
  induction s as [|c s IH]; cbn; [reflexivity|].
  rewrite IH. reflexivity.
Qed.

(** The report goes out as it is. *)
Lemma sprintf_report (text : string) : sprintf "%s" [text] = text.
Proof. cbn. apply append_empty_r. Qed.

(** The diagnostic of a failed open names the path between quotes and is
    one line more than the path is. *)
Lemma sprintf_unable_to_open (path : string) :
  sprintf unable_to_open [path]
  = "ogrinfo failed - unable to open '" ++ path ++ "'." ++ LF.
Proof. reflexivity. Qed.

Lemma count_LF_unable_to_open (path : string) :
  count_LF (sprintf unable_to_open [path]) = S (count_LF path).
Proof.
  rewrite sprintf_unable_to_open. cbn.
  rewrite count_LF_app. cbn. lia.
Qed.

Lemma line_ends_unable_to_open (path : string) :
  line_ends [sprintf unable_to_open [path]] = S (count_LF path).
Proof.
  unfold line_ends, list_sum. cbn [map fold_right].
  rewrite count_LF_unable_to_open. lia.
Qed.

(** ** The runs of [main] *)

Section Properties.
Context {OF : GDALOpenFlags} {G : GDALLibrary}.

(** Name the answer of the next library call and the world after it. *)
Ltac oracle :=
  match goal with
  | |- context [GDALIdentifyDriverEx ?p ?f ?w] =>
      is_var w; let E := fresh "Eprobe" in
      destruct (GDALIdentifyDriverEx p f w) as [[|] ?w] eqn:E
  | |- context [GDALDataset_Open ?p ?f ?oo ?w] =>
      is_var w; let E := fresh "Eopen" in
      destruct (GDALDataset_Open p f oo w) as [[?ds|] ?w] eqn:E
  | |- context [GDALVectorInfo ?d ?po ?w] =>
      is_var w; let E := fresh "Einfo" in
      destruct (GDALVectorInfo d po w) as [[?text|] ?w] eqn:E
  end.

(** Run [main] along every path: the switches, whether there is a
    statement, and each answer of the library. *)
Ltac run_main o :=
  destruct o as [fn vb ro up sql oo];
  unfold intent, run, events, exit_code, main;
  cbn;
  destruct ro, up, vb, sql;
  cbn;
  repeat (oracle; cbn).

Ltac use_wf H :=
  apply flags_wfb_spec in H; destruct H.

(** Close what is left once the run is a concrete list of events. *)
Ltac finish :=
  repeat first
    [ progress (cbn in *; rewrite ?Z.lor_0_r, ?append_empty_r in * )
    | progress intros
    | congruence
    | solve [auto with flags]
    | lia
    | match goal with
      | H : flags_wfb = true |- _ => use_wf H
      | H : _ \/ _ |- _ => destruct H
      | H : _ /\ _ |- _ => destruct H
      | H : False |- _ => destruct H
      | H : Some _ = Some _ |- _ => injection H as H
      | H : ?x = ?c |- _ => is_var c; subst c
      | |- _ /\ _ => split
      | |- exists _, _ => eexists
      end ].

(** C1.  With neither [-ro] nor update requested and a statement
    attached, the primary open passes the update flags (vector, update,
    verbose error).  When it succeeds it is the only open; when it
    fails there is exactly one more open, the read-only retry with the
    flags read-only and vector, and when that retry returns a dataset
    the run is degraded: it goes on with the dataset of the retry. *)
Theorem query_falls_back_to_read_only
    (o : GDALVectorInfoOptionsForBinary) (po : GDALVectorInfoOptions)
    (w : World) :
  intent o = Some Unspecified ->
  empty (osSQLStatement o) = false ->
  let t := events (run o po w) in
  exists c1,
    hd_error (open_calls t) = Some c1
    /\ oc_site c1 = PrimaryOpen
    /\ oc_flags c1 = encode [Vector; Update; VerboseError]
    /\ has GDAL_OF_UPDATE (oc_flags c1)
    /\ (oc_result c1 <> None -> open_calls t = [c1])
    /\ (oc_result c1 = None ->
        exists c2,
          open_calls t = [c1; c2]
          /\ oc_site c2 = RetryReadOnly
          /\ oc_flags c2 = encode [ReadOnly; Vector]
          /\ (flags_wfb = true -> lacks GDAL_OF_UPDATE (oc_flags c2))
          /\ (oc_result c2 <> None ->
              degraded t = true /\ final_dataset t = oc_result c2)).
Proof.
  run_main o; intros Hi Hq; try discriminate; finish.
Qed.

(** C2.  With neither switch and no statement, the probe is made once,
    on the path and for vector drivers, and the primary open passes the
    read-only flags: vector and read-only when the probe finds a
    driver, with verbose error added when it finds none.  Probe found
    a driver and the primary open fails: exactly one more open, the
    update retry with the flags update and vector.  Probe found none:
    the primary open is the only open and its flags carry verbose
    error. *)
Theorem no_query_probes_then_may_retry_update
    (o : GDALVectorInfoOptionsForBinary) (po : GDALVectorInfoOptions)
    (w : World) :
  intent o = Some Unspecified ->
  empty (osSQLStatement o) = true ->
  let t := events (run o po w) in
  exists found c1,
    probes t = [(osFilename o, GDAL_OF_VECTOR, found)]
    /\ hd_error (open_calls t) = Some c1
    /\ oc_site c1 = PrimaryOpen
    /\ oc_flags c1 = (if found then encode [Vector; ReadOnly]
                      else encode [Vector; ReadOnly; VerboseError])
    /\ (flags_wfb = true -> lacks GDAL_OF_UPDATE (oc_flags c1))
    /\ (found = true -> oc_result c1 <> None -> open_calls t = [c1])
    /\ (found = true -> oc_result c1 = None ->
        exists c2,
          open_calls t = [c1; c2]
          /\ oc_site c2 = RetryUpdate
          /\ oc_flags c2 = encode [Update; Vector]
          /\ has GDAL_OF_UPDATE (oc_flags c2))
    /\ (found = false ->
        open_calls t = [c1]
        /\ has GDAL_OF_VERBOSE_ERROR (oc_flags c1)).
Proof.
  run_main o; intros Hi Hq; try discriminate.
  all: eexists; finish.
Qed.

(** C3.  With exactly one of the two switches set there is one open and
    no retry, whatever the open returns.  Under [-ro] the flags are
    vector, read-only and verbose error, and no update bit is in the
    word; under update they are vector, update and verbose error: the
    word asks for update access, read-only is not named. *)
Theorem explicit_intent_opens_once
    (o : GDALVectorInfoOptionsForBinary) (po : GDALVectorInfoOptions)
    (w : World) (i : AccessIntent) :
  flags_wfb = true ->
  intent o = Some i ->
  i <> Unspecified ->
  let t := events (run o po w) in
  exists c1,
    open_calls t = [c1]
    /\ fallbacks t = []
    /\ probes t = []
    /\ oc_site c1 = PrimaryOpen
    /\ match i with
       | ForceReadOnly =>
           oc_flags c1 = encode [Vector; ReadOnly; VerboseError]
           /\ lacks GDAL_OF_UPDATE (oc_flags c1)
       | ForceUpdate =>
           oc_flags c1 = encode [Vector; Update; VerboseError]
           /\ has GDAL_OF_UPDATE (oc_flags c1)
           /\ ~ lacks GDAL_OF_UPDATE (oc_flags c1)
       | Unspecified => False
       end.
Proof.
  intros Hwf.
  run_main o; intros Hi Hn; inversion Hi; subst i; try congruence.
  all: finish.
  all: intros Hlacks.
  all: eapply has_lacks_absurd; [| | exact Hlacks]; auto with flags.
Qed.

(** C4, as the program has it.  In a degraded run the advisory is
    printed once on standard output when [bVerbose] is set and not at
    all when it is not. *)
Theorem advisory_surfaced_when_verbose
    (o : GDALVectorInfoOptionsForBinary) (po : GDALVectorInfoOptions)
    (w : World) :
  degraded (events (run o po w)) = true ->
  let t := events (run o po w) in
  advisory_count t = (if bVerbose o then 1 else 0)%nat
  /\ (bVerbose o = true ->
      exists rest, stdout_text t = had_to_open_read_only :: rest)
  /\ (bVerbose o = false ->
      forall s, In s (stdout_text t) ->
                exists ds, reports t = [(ds, Some s)]).
Proof.
  run_main o; finish.
Qed.

(** C5.  No run makes more than two opens, and no more than one after
    the primary one; a retry is the last open of its run.  When the
    retry returns null, the run ends as any failed open does: exit
    status 1 and the diagnostic on standard error; it is not degraded,
    no advisory is printed and no report is attempted. *)
Theorem at_most_one_fallback
    (o : GDALVectorInfoOptionsForBinary) (po : GDALVectorInfoOptions)
    (w : World) :
  let r := run o po w in
  let t := events r in
  (List.length (open_calls t) <= 2)%nat
  /\ (List.length (fallbacks t) <= 1)%nat
  /\ (exists c1, open_calls t = c1 :: fallbacks t
                 /\ oc_site c1 = PrimaryOpen)
  /\ (forall c, In c (fallbacks t) ->
        final_open t = Some c
        /\ (oc_result c = None ->
            exit_code r = 1
            /\ final_dataset t = None
            /\ degraded t = false
            /\ advisory_count t = 0%nat
            /\ reports t = []
            /\ stderr_text t = [sprintf unable_to_open [osFilename o]])).
Proof.
  run_main o; finish.
Qed.

(** C6.  A probe is made only with neither switch set and no
    statement attached; in that case there is exactly one, it is the
    first thing the run does, and the primary open follows it; in
    every other case the run makes no probe. *)
Theorem probe_only_when_unspecified_without_query
    (o : GDALVectorInfoOptionsForBinary) (po : GDALVectorInfoOptions)
    (w : World) :
  let t := events (run o po w) in
  (probes t <> [] ->
   intent o = Some Unspecified /\ empty (osSQLStatement o) = true)
  /\ (intent o <> Some Unspecified \/ empty (osSQLStatement o) = false ->
      probes t = [])
  /\ (intent o = Some Unspecified /\ empty (osSQLStatement o) = true ->
      exists found c1 rest,
        t = EvIdentify (osFilename o) GDAL_OF_VECTOR found
              :: EvOpen c1 :: rest
        /\ oc_site c1 = PrimaryOpen
        /\ probes rest = []).
Proof.
  run_main o; finish.
Qed.

(** C7, as the program has it.  The exit status is 0 when the final
    open returned a dataset and [GDALVectorInfo] returned a text, and 1
    when the final open returned null or [GDALVectorInfo] returned
    null.  After a failed open [main] writes one message to standard
    error, the diagnostic with the path between quotes and a line end
    after it: standard error then holds one line end more than the path
    has, so exactly one line when the path has no line end in it.  When
    a dataset was opened [main] writes nothing to standard error. *)
Theorem exit_status_and_diagnostic
    (o : GDALVectorInfoOptionsForBinary) (po : GDALVectorInfoOptions)
    (w : World) :
  let r := run o po w in
  let t := events r in
  (final_dataset t = None ->
   exit_code r = 1
   /\ reports t = []
   /\ stderr_text t
      = ["ogrinfo failed - unable to open '" ++ osFilename o ++ "'." ++ LF]
   /\ line_ends (stderr_text t) = S (count_LF (osFilename o))
   /\ (count_LF (osFilename o) = 0%nat ->
       line_ends (stderr_text t) = 1%nat))
  /\ (forall ds, final_dataset t = Some ds ->
      stderr_text t = []
      /\ line_ends (stderr_text t) = 0%nat
      /\ exists output,
           reports t = [(ds, output)]
           /\ exit_code r = (if is_null output then 1 else 0))
  /\ (exit_code r = 0 \/ exit_code r = 1).
Proof.
  intros r t.
  assert (Hrun :
    (final_dataset t = None ->
     exit_code r = 1
     /\ reports t = []
     /\ stderr_text t = [sprintf unable_to_open [osFilename o]])
    /\ (forall ds, final_dataset t = Some ds ->
        stderr_text t = []
        /\ exists output,
             reports t = [(ds, output)]
             /\ exit_code r = (if is_null output then 1 else 0))
    /\ (exit_code r = 0 \/ exit_code r = 1)).
  { subst t r. run_main o; finish. }
  destruct Hrun as (Hfail & Hopen & Hstatus).
  split; [|split; [|exact Hstatus]].
  - intros Hnull. destruct (Hfail Hnull) as (Hexit & Hnone & Herr).
    rewrite Herr, line_ends_unable_to_open.
    repeat split; auto.
  - intros ds Hds. destruct (Hopen ds Hds) as (Herr & Hreport).
    rewrite Herr. repeat split; auto.
Qed.

(** C8.  Every flag word passed to [GDALDataset::Open], by the primary
    call or by a retry, has the vector bit and is the word of a flag
    set that names vector and exactly one of read-only and update;
    the word has the update bits when the set names update and has
    none of them when it names read-only. *)
Theorem every_open_names_vector_and_one_access
    (o : GDALVectorInfoOptionsForBinary) (po : GDALVectorInfoOptions)
    (w : World) (c : OpenCall) :
  flags_wfb = true ->
  In c (open_calls (events (run o po w))) ->
  has GDAL_OF_VECTOR (oc_flags c)
  /\ exists s,
       oc_flags c = encode s
       /\ one_access s = true
       /\ (if mem Update s then has GDAL_OF_UPDATE (oc_flags c)
           else lacks GDAL_OF_UPDATE (oc_flags c)).
Proof.
  intros Hwf; use_wf Hwf.
  run_main o; intros Hin.
  all: repeat match goal with
              | H : _ \/ _ |- _ => destruct H
              | H : False |- _ => destruct H
              end; subst c; cbn.
  all: split; [solve [auto with flags]|].
  all: first
    [ exists [Vector; Update; VerboseError]; solve [finish]
    | exists [Vector; ReadOnly; VerboseError]; solve [finish]
    | exists [Vector; ReadOnly]; solve [finish]
    | exists [Update; Vector]; solve [finish]
    | exists [ReadOnly; Vector]; solve [finish] ].
Qed.

(** C9.  With both switches set the run is, event for event and in its
    exit status, the run with update alone: one open with the flags
    vector, update and verbose error, no probe and no retry. *)
Theorem both_switches_behave_as_update
    (path : string) (verbose : bool) (sql : string) (oo : list string)
    (po : GDALVectorInfoOptions) (w : World) :
  let both := options path verbose true true sql oo in
  let update := options path verbose false true sql oo in
  intent both = None
  /\ intent update = Some ForceUpdate
  /\ run both po w = run update po w
  /\ probes (events (run both po w)) = []
  /\ fallbacks (events (run both po w)) = []
  /\ exists result,
       open_calls (events (run both po w))
       = [{| oc_site := PrimaryOpen; oc_path := path;
             oc_flags := encode [Vector; Update; VerboseError];
             oc_options := oo; oc_result := result |}].
Proof.
  unfold options, intent, run, events, main; cbn.
  repeat (oracle; cbn); finish.
Qed.

(** C10, as the program has it.  Each retry passes the path and the
    open options of the options structure, as the primary call does,
    and its flag word has no verbose-error bit.  The update retry
    passes update and vector after a primary word of vector and
    read-only: the primary word has no update bit and no verbose-error
    bit, the retry word has the update bits, and the two agree outside
    the access bits.  The read-only retry passes read-only and vector
    after a primary word of vector, update and verbose error: the
    primary word has the update and the verbose-error bits, the retry
    word has neither, and the two agree outside the access and
    verbose-error bits. *)
Theorem retry_keeps_path_and_options
    (o : GDALVectorInfoOptionsForBinary) (po : GDALVectorInfoOptions)
    (w : World) (c1 c2 : OpenCall) :
  flags_wfb = true ->
  hd_error (open_calls (events (run o po w))) = Some c1 ->
  In c2 (fallbacks (events (run o po w))) ->
  (oc_path c1 = osFilename o /\ oc_path c2 = osFilename o)
  /\ (oc_options c1 = aosOpenOptions o
      /\ oc_options c2 = aosOpenOptions o)
  /\ oc_site c1 = PrimaryOpen
  /\ lacks GDAL_OF_VERBOSE_ERROR (oc_flags c2)
  /\ match oc_site c2 with
     | PrimaryOpen => False
     | RetryUpdate =>
         oc_flags c1 = encode [Vector; ReadOnly]
         /\ oc_flags c2 = encode [Update; Vector]
         /\ (lacks GDAL_OF_UPDATE (oc_flags c1)
             /\ has GDAL_OF_UPDATE (oc_flags c2))
         /\ lacks GDAL_OF_VERBOSE_ERROR (oc_flags c1)
         /\ same_outside access_mask (oc_flags c2) (oc_flags c1)
     | RetryReadOnly =>
         oc_flags c1 = encode [Vector; Update; VerboseError]
         /\ oc_flags c2 = encode [ReadOnly; Vector]
         /\ (has GDAL_OF_UPDATE (oc_flags c1)
             /\ lacks GDAL_OF_UPDATE (oc_flags c2))
         /\ has GDAL_OF_VERBOSE_ERROR (oc_flags c1)
         /\ same_outside (Z.lor access_mask GDAL_OF_VERBOSE_ERROR)
                         (oc_flags c2) (oc_flags c1)
     end.
Proof.
  intros Hwf; use_wf Hwf.
  run_main o; intros Hhd Hin.
  all: repeat match goal with
              | H : _ \/ _ |- _ => destruct H
              | H : False |- _ => destruct H
              end.
  all: inversion Hhd; subst c1 c2; cbn; unfold access_mask.
  all: rewrite ?Z.lor_0_r; repeat split; auto with flags.
Qed.

End Properties.

(** ** The scenarios, run *)

(** Recognized but empty container, no switch, no statement: the probe
    finds a driver, the read-only open fails, the update retry succeeds;
    the run succeeds and is not degraded. *)
Example scenario_empty_container :
  let r := run_in empty_container (no_switch "empty.gpkg" "" true) in
  opened (events r) = [(PrimaryOpen, 0x04, false); (RetryUpdate, 0x05, true)]
  /\ probes (events r) = [("empty.gpkg", 0x04, true)]
  /\ degraded (events r) = false
  /\ exit_code r = 0
  /\ stderr_text (events r) = [].
Proof. vm_compute. repeat split. Qed.

(** Read-only mount, no switch, a statement attached: the update open
    fails, the read-only retry succeeds; degraded, advisory printed. *)
Example scenario_read_only_mount :
  let r := run_in read_only_mount (no_switch "ro.gpkg" "SELECT 1" true) in
  opened (events r) = [(PrimaryOpen, 0x45, false); (RetryReadOnly, 0x04, true)]
  /\ probes (events r) = []
  /\ degraded (events r) = true
  /\ advisory_count (events r) = 1%nat
  /\ exit_code r = 0.
Proof. vm_compute. repeat split. Qed.

(** Unrecognized path, no switch, no statement: the probe finds nothing,
    the verbose read-only open fails and the run ends there. *)
Example scenario_unrecognized :
  let r := run_in unrecognized (no_switch "unknown.bin" "" true) in
  opened (events r) = [(PrimaryOpen, 0x44, false)]
  /\ probes (events r) = [("unknown.bin", 0x04, false)]
  /\ exit_code r = 1
  /\ stderr_text (events r)
     = ["ogrinfo failed - unable to open 'unknown.bin'." ++ LF].
Proof. vm_compute. repeat split. Qed.

(** Update forced on the read-only mount: the open fails and no
    read-only retry is made, though it would succeed. *)
Example scenario_forced_update :
  let r :=
    run_in read_only_mount (options "ro.gpkg" true false true "" []) in
  opened (events r) = [(PrimaryOpen, 0x45, false)]
  /\ exit_code r = 1.
Proof. vm_compute. repeat split. Qed.

(** A source that opens at once: one open, the report on standard
    output, exit status 0. *)
Example scenario_plain_source :
  let r := run_in plain_source (no_switch "a.shp" "" true) in
  opened (events r) = [(PrimaryOpen, 0x04, true)]
  /\ exit_code r = 0
  /\ stderr_text (events r) = []
  /\ stdout_text (events r) = ["INFO: a.shp" ++ LF].
Proof. vm_compute. repeat split. Qed.

(** The report cannot be produced: exit status 1, nothing on standard
    error. *)
Example scenario_report_fails :
  let r := run_in unreadable_source (no_switch "a.shp" "" true) in
  opened (events r) = [(PrimaryOpen, 0x04, true)]
  /\ exit_code r = 1
  /\ stderr_text (events r) = []
  /\ stdout_text (events r) = [].
Proof. vm_compute. repeat split. Qed.

(** ** The three statements that fail, at a concrete run *)

(** C7 as stated fails on an unrecognized path with a line end in its
    name: the one diagnostic that [main] writes spans two lines. *)
Lemma diagnostic_spans_two_lines :
  ~ @one_diagnostic_line gdal_h unrecognized
      (no_switch ("un" ++ LF ++ "known.bin") "" true) tt 0%nat.
Proof.
  unfold one_diagnostic_line. intros [Hfail _].
  destruct (Hfail eq_refl) as [_ Hlines].
  vm_compute in Hlines. discriminate Hlines.
Qed.

(** C4 as stated fails on the read-only mount with a statement attached
    and [bVerbose] off: the run is degraded and prints no advisory. *)
Lemma advisory_not_surfaced_when_quiet :
  ~ @advisory_always_surfaced gdal_h read_only_mount
      (no_switch "ro.gpkg" "SELECT 1" false) tt 0%nat.
Proof.
  unfold advisory_always_surfaced. intros H.
  specialize (H eq_refl). vm_compute in H. lia.
Qed.

(** C10 as stated fails on the read-only mount with a statement
    attached: the primary word is vector, update, verbose error and the
    retry word is vector alone, so the two differ in the verbose-error
    bit as well as in the access bit. *)
Lemma read_only_retry_drops_verbose_error :
  ~ @retry_differs_in_access_only gdal_h read_only_mount
      (no_switch "ro.gpkg" "SELECT 1" true) tt 0%nat.
Proof.
  unfold retry_differs_in_access_only. intros H.
  edestruct H as (_ & _ & _ & Hsame).
  - reflexivity.
  - left. reflexivity.
  - vm_compute in Hsame. discriminate Hsame.
Qed.

(** ** The theorems at concrete runs *)

(** The values of [gdal.h] are well formed. *)
Lemma gdal_h_wf : @flags_wfb gdal_h = true.
Proof. reflexivity. Qed.

(** C1 on the read-only mount with a statement attached. *)
Lemma query_falls_back_to_read_only_witness :
  let o := no_switch "ro.gpkg" "SELECT 1" true in
  let t := events (run_in read_only_mount o) in
  (intent o = Some Unspecified /\ empty (osSQLStatement o) = false)
  /\ exists c1,
       hd_error (open_calls t) = Some c1
       /\ oc_site c1 = PrimaryOpen
       /\ oc_flags c1 = 0x45.
Proof.
  split; [split; reflexivity|].
  destruct (@query_falls_back_to_read_only gdal_h read_only_mount
              (no_switch "ro.gpkg" "SELECT 1" true) tt 0%nat
              eq_refl eq_refl)
    as (c1 & Hhd & Hsite & Hflags & _).
  exists c1. exact (conj Hhd (conj Hsite Hflags)).
Defined.

(** C2 on the empty container without a statement. *)
Lemma no_query_probes_then_may_retry_update_witness :
  let o := no_switch "empty.gpkg" "" true in
  let t := events (run_in empty_container o) in
  (intent o = Some Unspecified /\ empty (osSQLStatement o) = true)
  /\ exists found c1,
       probes t = [("empty.gpkg", 0x04, found)]
       /\ hd_error (open_calls t) = Some c1
       /\ oc_site c1 = PrimaryOpen.
Proof.
  split; [split; reflexivity|].
  destruct (@no_query_probes_then_may_retry_update gdal_h empty_container
              (no_switch "empty.gpkg" "" true) tt 0%nat
              eq_refl eq_refl)
    as (found & c1 & Hprobe & Hhd & Hsite & _).
  exists found, c1. exact (conj Hprobe (conj Hhd Hsite)).
Defined.

(** C3 with update forced on the read-only mount. *)
Lemma explicit_intent_opens_once_witness :
  let o := options "ro.gpkg" true false true "" [] in
  let t := events (run_in read_only_mount o) in
  (@flags_wfb gdal_h = true /\ intent o = Some ForceUpdate
   /\ ForceUpdate <> Unspecified)
  /\ exists c1,
       open_calls t = [c1] /\ fallbacks t = [] /\ probes t = [].
Proof.
  split; [split; [reflexivity | split; [reflexivity | discriminate]]|].
  destruct (@explicit_intent_opens_once gdal_h read_only_mount
              (options "ro.gpkg" true false true "" []) tt 0%nat
              ForceUpdate eq_refl eq_refl
              ltac:(discriminate))
    as (c1 & Hopen & Hfall & Hprobe & _).
  exists c1. exact (conj Hopen (conj Hfall Hprobe)).
Defined.

(** C4, as the program has it, on the read-only mount with a statement
    attached and [bVerbose] set. *)
Lemma advisory_surfaced_when_verbose_witness :
  let o := no_switch "ro.gpkg" "SELECT 1" true in
  let t := events (run_in read_only_mount o) in
  degraded t = true /\ advisory_count t = 1%nat.
Proof.
  split; [reflexivity|].
  exact (proj1 (@advisory_surfaced_when_verbose gdal_h read_only_mount
                  (no_switch "ro.gpkg" "SELECT 1" true) tt 0%nat eq_refl)).
Defined.

(** C8 on the update retry of the empty container. *)
Lemma every_open_names_vector_and_one_access_witness :
  let o := no_switch "empty.gpkg" "" true in
  let t := events (run_in empty_container o) in
  let c := @Build_OpenCall empty_container RetryUpdate "empty.gpkg" 0x05
             ["LIST_ALL_TABLES=YES"] (Some ("empty.gpkg", 0x05)) in
  (@flags_wfb gdal_h = true /\ In c (open_calls t))
  /\ @has 0x04 (oc_flags c).
Proof.
  split; [split; [reflexivity | right; left; reflexivity]|].
  exact (proj1 (@every_open_names_vector_and_one_access gdal_h
                  empty_container (no_switch "empty.gpkg" "" true) tt 0%nat
                  _ eq_refl (or_intror (or_introl eq_refl)))).
Defined.

(** C10, as the program has it, on the read-only mount with a statement
    attached. *)
Lemma retry_keeps_path_and_options_witness :
  let o := no_switch "ro.gpkg" "SELECT 1" true in
  let t := events (run_in read_only_mount o) in
  let c1 := @Build_OpenCall read_only_mount PrimaryOpen "ro.gpkg" 0x45
              ["LIST_ALL_TABLES=YES"] None in
  let c2 := @Build_OpenCall read_only_mount RetryReadOnly "ro.gpkg" 0x04
              ["LIST_ALL_TABLES=YES"] (Some ("ro.gpkg", 0x04)) in
  (@flags_wfb gdal_h = true /\ hd_error (open_calls t) = Some c1
   /\ In c2 (fallbacks t))
  /\ oc_path c2 = oc_path c1
  /\ oc_options c2 = oc_options c1
  /\ @lacks 0x40 (oc_flags c2).
Proof.
  split; [split; [reflexivity | split; [reflexivity | left; reflexivity]]|].
  destruct (@retry_keeps_path_and_options gdal_h read_only_mount
              (no_switch "ro.gpkg" "SELECT 1" true) tt 0%nat
              _ _ eq_refl eq_refl (or_introl eq_refl))
    as ((Hp1 & Hp2) & (Ho1 & Ho2) & _ & Hlacks & _).
  split; [|split].
  - exact (eq_trans Hp2 (eq_sym Hp1)).
  - exact (eq_trans Ho2 (eq_sym Ho1)).
  - exact Hlacks.
Defined.

(** * The whole program *)

(** ** The usage text and the argument loop *)

(** The usage text has no conversion in it: it is printed as it is. *)
Lemma sprintf_usage_text : sprintf usage_text [] = usage_text.
Proof. vm_compute. reflexivity. Qed.

(** The line of [--utility_version] ends once more than its three
    arguments do. *)
Lemma line_ends_utility_version (name compiled running : string) :
  line_ends [sprintf utility_version_format [name; compiled; running]]
  = S (count_LF name + count_LF compiled + count_LF running).
Proof.
  unfold line_ends, list_sum. cbn.
  repeat (rewrite count_LF_app; cbn). lia.
Qed.

Lemma sprintf_failure (msg : string) :
  sprintf failure_format [msg] = LF ++ "FAILURE: " ++ msg ++ LF.
Proof. reflexivity. Qed.

Section ProgramFacts.
Context {OF : GDALOpenFlags} {G : GDALLibrary} {ST : OGRInfoStartup}.

(** The loop passes over arguments that are no switch and leaves the
    process as it found it. *)
Lemma scan_arguments_no_switch (argv0 : string) (l : list string)
    (p : Process) :
  no_switch_in l = true ->
  runState (unEitherT (scan_arguments argv0 l)) p = (inr tt, p).
Proof.
  induction l as [|a l IH]; cbn; intros H; [reflexivity|].
  apply andb_true_iff in H. destruct H as [Ha Hl].
  apply andb_true_iff in Ha. destruct Ha as [Hv Hh].
  apply negb_true_iff in Hv, Hh. rewrite Hv, Hh. auto.
Qed.

(** The first switch decides; [--utility_version] is tested first. *)
Lemma scan_arguments_first_switch (argv0 : string) (pre post : list string)
    (a : string) (p : Process) :
  no_switch_in pre = true ->
  runState (unEitherT (scan_arguments argv0 (pre ++ a :: post))) p
  = if EQUAL a "--utility_version" then
      let v := GDALVersionInfo "RELEASE_NAME" (world p) in
      (inl 0, {| world := snd v;
                 trace := trace p
                          ++ [EvPrintf utility_version_format
                                [argv0; GDAL_RELEASE_NAME; fst v]] |})
    else if EQUAL a "--help" then
      (inl 0, {| world := world p;
                 trace := trace p ++ [EvPrintf usage_text []] |})
    else runState (unEitherT (scan_arguments argv0 post)) p.
Proof.
  induction pre as [|b pre IH];
    cbn -[usage_text utility_version_format]; intros H.
  - destruct (EQUAL a "--utility_version"); [reflexivity|].
    destruct (EQUAL a "--help"); reflexivity.
  - apply andb_true_iff in H. destruct H as [Ha Hl].
    apply andb_true_iff in Ha. destruct Ha as [Hv Hh].
    apply negb_true_iff in Hv, Hh. rewrite Hv, Hh. auto.
Qed.

(** Any argument list either has no switch or splits at its first one. *)
Lemma first_switch_split (l : list string) :
  no_switch_in l = true
  \/ exists pre a post,
       l = (pre ++ a :: post)%list
       /\ no_switch_in pre = true
       /\ (EQUAL a "--utility_version" = true
           \/ EQUAL a "--help" = true).
Proof.
  induction l as [|b l IH]; [left; reflexivity|].
  destruct (EQUAL b "--utility_version") eqn:Hv.
  - right. exists [], b, l. auto.
  - destruct (EQUAL b "--help") eqn:Hh.
    + right. exists [], b, l. auto.
    + destruct IH as [IH|(pre & a & post & -> & Hpre & Ha)].
      * left. unfold no_switch_in in *. cbn. rewrite Hv, Hh. exact IH.
      * right. exists (b :: pre), a, post.
        unfold no_switch_in in *. cbn. rewrite Hv, Hh. auto.
Qed.

Ltac start_program :=
  unfold run_program, main_argc_argv, registered in *;
  cbn -[usage_text utility_version_format failure_format
        scan_arguments main] in *.

Ltac step_program :=
  cbn -[usage_text utility_version_format failure_format
        scan_arguments main] in *.

(** ** The ways a run of the program can go *)

Lemma run_program_check_fails (argc : Z) (argv : list string) (w : World) :
  fst (GDAL_CHECK_VERSION (hd_error argv) w) = false ->
  run_program argc argv w
  = (1, {| world := snd (GDAL_CHECK_VERSION (hd_error argv) w);
           trace := [] |}).
Proof. intros Hcheck. start_program. rewrite Hcheck. reflexivity. Qed.

Lemma run_program_processor_stops (argc : Z) (argv : list string)
    (w : World) (argc' : Z) (args : option (list string)) (w' : World) :
  fst (GDAL_CHECK_VERSION (hd_error argv) w) = true ->
  OGRGeneralCmdLineProcessor argc argv (registered argc argv w)
  = ((argc', args), w') ->
  argc' < 1 ->
  run_program argc argv w = (- argc', {| world := w'; trace := [] |}).
Proof.
  intros Hcheck Hproc Hargc. start_program. rewrite Hcheck. step_program.
  rewrite Hproc. step_program.
  destruct (Z.ltb_spec argc' 1) as [_|Hge]; [reflexivity | lia].
Qed.

Lemma run_program_first_switch (argc : Z) (argv : list string) (w : World)
    (argc' : Z) (pre post : list string) (a : string) (w' : World) :
  fst (GDAL_CHECK_VERSION (hd_error argv) w) = true ->
  OGRGeneralCmdLineProcessor argc argv (registered argc argv w)
  = ((argc', Some (pre ++ a :: post)%list), w') ->
  1 <= argc' ->
  no_switch_in pre = true ->
  EQUAL a "--utility_version" = true \/ EQUAL a "--help" = true ->
  run_program argc argv w
  = if EQUAL a "--utility_version" then
      let v := GDALVersionInfo "RELEASE_NAME" w' in
      (0, {| world := snd v;
             trace := [EvPrintf utility_version_format
                         [hd a pre; GDAL_RELEASE_NAME; fst v]] |})
    else (0, {| world := w'; trace := [EvPrintf usage_text []] |}).
Proof.
  intros Hcheck Hproc Hargc Hpre Ha.
  start_program. rewrite Hcheck. step_program.
  rewrite Hproc. step_program.
  destruct (Z.ltb_spec argc' 1) as [Hlt|_]; [lia|]. step_program.
  assert (Hscan : forall argv0,
    runState (unEitherT (scan_arguments argv0 (pre ++ a :: post)))
      {| world := w'; trace := [] |}
    = if EQUAL a "--utility_version" then
        (inl 0, {| world := snd (GDALVersionInfo "RELEASE_NAME" w');
                   trace := [EvPrintf utility_version_format
                               [argv0; GDAL_RELEASE_NAME;
                                fst (GDALVersionInfo "RELEASE_NAME" w')]] |})
      else (inl 0, {| world := w'; trace := [EvPrintf usage_text []] |})).
  { intros argv0. rewrite scan_arguments_first_switch by assumption.
    destruct (EQUAL a "--utility_version"); [reflexivity|].
    destruct Ha as [Ha|Ha]; [discriminate|]. rewrite Ha. reflexivity. }
  destruct pre as [|b pre]; step_program; rewrite Hscan;
    destruct (EQUAL a "--utility_version"); reflexivity.
Qed.

Lemma run_program_parses (argc : Z) (argv : list string) (w : World)
    (argc' : Z) (args : option (list string)) (w' : World) :
  fst (GDAL_CHECK_VERSION (hd_error argv) w) = true ->
  OGRGeneralCmdLineProcessor argc argv (registered argc argv w)
  = ((argc', args), w') ->
  1 <= argc' ->
  no_switch_args args = true ->
  let parsed :=
    GDALVectorInfoOptionsNew (tl (CSLAddString args "-stdout")) w' in
  run_program argc argv w
  = match fst (fst parsed) with
    | None =>
        (1, {| world := snd parsed;
               trace := [EvFprintfStderr usage_text []] |})
    | Some psOptions =>
        if empty (osFilename (snd (fst parsed))) then
          (1, {| world := snd parsed;
                 trace := [EvFprintfStderr usage_text [];
                           EvFprintfStderr failure_format [no_datasource]] |})
        else run (snd (fst parsed)) psOptions (snd parsed)
    end.
Proof.
  intros Hcheck Hproc Hargc Hargs parsed. subst parsed.
  start_program. rewrite Hcheck. step_program.
  rewrite Hproc. step_program.
  destruct (Z.ltb_spec argc' 1) as [Hlt|_]; [lia|]. step_program.
  destruct args as [[|a l]|]; step_program;
    try rewrite (scan_arguments_no_switch a (a :: l)) by exact Hargs;
    step_program.
  all: match goal with
       | |- context [GDALVectorInfoOptionsNew ?l ?w0] =>
           destruct (GDALVectorInfoOptionsNew l w0) as [[[po|] ob] w'']
       end; step_program; [|reflexivity].
  all: destruct (empty (osFilename ob)); step_program; [reflexivity|].
  all: unfold run;
    destruct (runState (main ob po) {| world := w''; trace := [] |});
    reflexivity.
Qed.

(** Every run of the program ends in one of five ways: before anything
    is printed; on a switch, with one [printf]; on the usage text on
    standard error, alone or followed by the failure line; or as the run
    of the open-and-report block on options with a data source name. *)
Lemma run_program_cases (argc : Z) (argv : list string) (w : World) :
  let r := run_program argc argv w in
  let processed :=
    OGRGeneralCmdLineProcessor argc argv (registered argc argv w) in
  (events r = []
   /\ (exit_code r = 1
       \/ (fst (fst processed) < 1 /\ exit_code r = - fst (fst processed))))
  \/ (exit_code r = 0 /\ exists fmt args, events r = [EvPrintf fmt args])
  \/ (exit_code r = 1
      /\ (events r = [EvFprintfStderr usage_text []]
          \/ events r = [EvFprintfStderr usage_text [];
                         EvFprintfStderr failure_format [no_datasource]]))
  \/ (exists o po w', empty (osFilename o) = false /\ r = run o po w').
Proof.
  intros r processed. subst r.
  destruct (fst (GDAL_CHECK_VERSION (hd_error argv) w)) eqn:Hcheck.
  2:{ left. rewrite run_program_check_fails by assumption. auto. }
  destruct processed as [[argc' args] w'] eqn:Hproc. subst processed.
  cbn [fst snd].
  destruct (Z.lt_ge_cases argc' 1) as [Hlt|Hge].
  { left. rewrite (run_program_processor_stops _ _ _ Hcheck Hproc Hlt).
    auto. }
  assert (Hpass : no_switch_args args = true ->
    (exit_code (run_program argc argv w) = 1
     /\ (events (run_program argc argv w) = [EvFprintfStderr usage_text []]
         \/ events (run_program argc argv w)
            = [EvFprintfStderr usage_text [];
               EvFprintfStderr failure_format [no_datasource]]))
    \/ (exists o po w'', empty (osFilename o) = false
                         /\ run_program argc argv w = run o po w'')).
  { intros Hargs.
    rewrite (run_program_parses _ _ _ Hcheck Hproc Hge Hargs).
    destruct (GDALVectorInfoOptionsNew _ w') as [[[po|] ob] w''];
      cbn [fst snd]; [|left; auto].
    destruct (empty (osFilename ob)) eqn:Hname; [left; auto|].
    right. exists ob, po, w''. auto. }
  destruct args as [l|]; [|right; right; apply Hpass; reflexivity].
  destruct (first_switch_split l)
    as [Hnone|(pre & a & post & -> & Hpre & Ha)].
  { right; right. apply Hpass. exact Hnone. }
  right; left.
  rewrite (run_program_first_switch _ _ _ _ _ _ Hcheck Hproc Hge Hpre Ha).
  destruct (EQUAL a "--utility_version"); cbn; eauto.
Qed.

End ProgramFacts.

(** ** More on the open-and-report block *)

Section BlockFacts.
Context {OF : GDALOpenFlags} {G : GDALLibrary}.

(** Name the answer of the next library call and the world after it. *)
Ltac answer :=
  match goal with
  | |- context [GDALIdentifyDriverEx ?p ?f ?w] =>
      is_var w; let E := fresh "Eprobe" in
      destruct (GDALIdentifyDriverEx p f w) as [[|] ?w] eqn:E
  | |- context [GDALDataset_Open ?p ?f ?oo ?w] =>
      is_var w; let E := fresh "Eopen" in
      destruct (GDALDataset_Open p f oo w) as [[?ds|] ?w] eqn:E
  | |- context [GDALVectorInfo ?d ?po ?w] =>
      is_var w; let E := fresh "Einfo" in
      destruct (GDALVectorInfo d po w) as [[?text|] ?w] eqn:E
  end.

(** Follow [main] along every path. *)
Ltac paths o :=
  destruct o as [fn vb ro up sql oo];
  unfold intent, run, events, exit_code, main,
         set_bVerbose, set_bReadOnly, set_bUpdate;
  cbn;
  destruct ro, up, vb, sql;
  cbn;
  repeat (answer; cbn).

Ltac settle :=
  repeat first
    [ progress (cbn in *; rewrite ?Z.lor_0_r, ?append_empty_r in * )
    | progress intros
    | congruence
    | solve [auto with flags]
    | lia
    | match goal with
      | H : _ \/ _ |- _ => destruct H
      | H : _ /\ _ |- _ => destruct H
      | H : False |- _ => destruct H
      | H : Some _ = Some _ |- _ => injection H as H
      | H : ?x = ?c |- _ => is_var c; subst c
      | |- _ /\ _ => split
      | |- exists _, _ => eexists
      end ].

(** Every open call of the block is on the data source name. *)
Lemma open_calls_on_the_data_source (o : GDALVectorInfoOptionsForBinary)
    (po : GDALVectorInfoOptions) (w : World) (c : OpenCall) :
  In c (open_calls (events (run o po w))) -> oc_path c = osFilename o.
Proof. paths o; settle. Qed.

Lemma probes_on_the_data_source (o : GDALVectorInfoOptionsForBinary)
    (po : GDALVectorInfoOptions) (w : World) (p : string * Z * bool) :
  In p (probes (events (run o po w))) -> fst (fst p) = osFilename o.
Proof. paths o; settle. Qed.

Lemma block_exit_status (o : GDALVectorInfoOptionsForBinary)
    (po : GDALVectorInfoOptions) (w : World) :
  (exit_code (run o po w) = 0 /\ stderr_text (events (run o po w)) = [])
  \/ exit_code (run o po w) = 1.
Proof. paths o; settle. Qed.

(** X10.  The block obtains at most one dataset; a dataset obtained is
    the one [GDALVectorInfo] is called on, once, and it is deleted
    exactly once, as the last thing the block does; when no open
    returns a dataset, no report is attempted and nothing is deleted. *)
Theorem dataset_deleted_once_after_report
    (o : GDALVectorInfoOptionsForBinary) (po : GDALVectorInfoOptions)
    (w : World) :
  let t := events (run o po w) in
  deletes t = obtained t
  /\ (List.length (obtained t) <= 1)%nat
  /\ (obtained t = [] -> reports t = [])
  /\ (forall ds, In ds (obtained t) ->
      final_dataset t = Some ds
      /\ exists output,
           reports t = [(ds, output)]
           /\ t = (removelast t ++ [EvDelete ds])%list
           /\ deletes (removelast t) = []
           /\ reports (removelast t) = [(ds, output)]).
Proof. paths o; settle. Qed.

(** X11.  Standard output gets the advisory, when the run is degraded
    and [bVerbose] is set, and then the report text, when
    [GDALVectorInfo] returned one; nothing else.  In particular a run
    that is not degraded prints no advisory. *)
Theorem stdout_is_advisory_then_report
    (o : GDALVectorInfoOptionsForBinary) (po : GDALVectorInfoOptions)
    (w : World) :
  let t := events (run o po w) in
  stdout_text t
  = ((if degraded t && bVerbose o then [had_to_open_read_only] else [])
     ++ report_texts t)%list
  /\ advisory_count t = (if degraded t && bVerbose o then 1 else 0)%nat.
Proof. paths o; settle. Qed.

(** X12.  [bVerbose] changes nothing but the advisory: with the flag set
    to any value the exit status, the final world, standard error and
    all events other than the advisory are the same. *)
Theorem bVerbose_only_affects_the_advisory
    (o : GDALVectorInfoOptionsForBinary) (b : bool)
    (po : GDALVectorInfoOptions) (w : World) :
  let r := run o po w in
  let r' := run (set_bVerbose b o) po w in
  exit_code r' = exit_code r
  /\ world (snd r') = world (snd r)
  /\ without_advisory (events r') = without_advisory (events r)
  /\ stderr_text (events r') = stderr_text (events r).
Proof. destruct b; paths o; settle. Qed.

(** X13.  A retry is made only with no switch set and after the primary
    open returned null; the update retry only without a statement and
    after a probe that found a driver, the read-only retry only with a
    statement (and then no probe was made). *)
Theorem retry_only_after_failed_primary
    (o : GDALVectorInfoOptionsForBinary) (po : GDALVectorInfoOptions)
    (w : World) (c2 : OpenCall) :
  In c2 (fallbacks (events (run o po w))) ->
  let t := events (run o po w) in
  intent o = Some Unspecified
  /\ (exists c1, hd_error (open_calls t) = Some c1 /\ oc_result c1 = None)
  /\ match oc_site c2 with
     | PrimaryOpen => False
     | RetryUpdate =>
         empty (osSQLStatement o) = true
         /\ probes t = [(osFilename o, GDAL_OF_VECTOR, true)]
     | RetryReadOnly =>
         empty (osSQLStatement o) = false /\ probes t = []
     end.
Proof. paths o; settle. Qed.

(** X14.  With no switch and no statement, when the probe finds no
    driver the run is the probe followed by what the run with [-ro] does
    in the world the probe left: same events after the probe, same exit
    status, same final world. *)
Theorem unrecognized_source_runs_as_read_only
    (o : GDALVectorInfoOptionsForBinary) (po : GDALVectorInfoOptions)
    (w : World) :
  intent o = Some Unspecified ->
  empty (osSQLStatement o) = true ->
  fst (GDALIdentifyDriverEx (osFilename o) GDAL_OF_VECTOR w) = false ->
  let w1 := snd (GDALIdentifyDriverEx (osFilename o) GDAL_OF_VECTOR w) in
  let r := run o po w in
  let r' := run (set_bReadOnly true o) po w1 in
  exit_code r = exit_code r'
  /\ world (snd r) = world (snd r')
  /\ events r
     = EvIdentify (osFilename o) GDAL_OF_VECTOR false :: events r'.
Proof.
  destruct o as [fn vb ro up sql oo].
  unfold intent, run, events, exit_code, main, set_bReadOnly; cbn.
  destruct ro, up, sql; try discriminate. intros _ _. cbn.
  destruct (GDALIdentifyDriverEx fn GDAL_OF_VECTOR w) as [[|] w1];
    cbn; [discriminate|]. intros _.
  rewrite lor_lor.
  repeat (answer; cbn); settle.
Qed.

(** X15.  With a statement attached and no switch, when the primary open
    returns a dataset the run is the run with update requested. *)
Theorem statement_run_is_update_run_when_open_succeeds
    (o : GDALVectorInfoOptionsForBinary) (po : GDALVectorInfoOptions)
    (w : World) :
  intent o = Some Unspecified ->
  empty (osSQLStatement o) = false ->
  fst (GDALDataset_Open (osFilename o)
         (encode [Vector; Update; VerboseError]) (aosOpenOptions o) w)
  <> None ->
  run o po w = run (set_bUpdate true o) po w.
Proof.
  destruct o as [fn vb ro up sql oo].
  unfold intent, run, main, set_bUpdate; cbn.
  destruct ro, up, sql; try discriminate. intros _ _. cbn.
  rewrite Z.lor_0_r.
  destruct (GDALDataset_Open fn _ oo w) as [[ds|] w1]; cbn; [|congruence].
  intros _. repeat (answer; cbn); reflexivity.
Qed.

End BlockFacts.

(** ** The program from its arguments *)

Section ProgramProperties.
Context {OF : GDALOpenFlags} {G : GDALLibrary} {ST : OGRInfoStartup}.

(** X1.  A failed version check ends the program with status 1, and a
    general processor that returns less than 1 ends it with the negated
    value as status; in both cases [main] has printed nothing, no
    option has been parsed and nothing has been probed or opened. *)
Theorem silent_early_exits
    (argc : Z) (argv : list string) (w : World) :
  let checked := GDAL_CHECK_VERSION (hd_error argv) w in
  let processed :=
    OGRGeneralCmdLineProcessor argc argv (registered argc argv w) in
  (fst checked = false ->
   run_program argc argv w = (1, {| world := snd checked; trace := [] |}))
  /\ (fst checked = true -> fst (fst processed) < 1 ->
      run_program argc argv w
      = (- fst (fst processed), {| world := snd processed; trace := [] |})).
Proof.
  cbn zeta. split.
  - apply run_program_check_fails.
  - intros Hcheck Hargc.
    destruct (OGRGeneralCmdLineProcessor _ _ _) as [[argc' args] w'] eqn:Hp.
    exact (run_program_processor_stops _ _ _ Hcheck Hp Hargc).
Qed.

(** X2.  When the first switch among the arguments is [--help], the
    usage text goes to standard output, nothing goes to standard error,
    the status is 0, and the program stops there: no option is parsed
    and nothing is opened. *)
Theorem help_prints_usage_and_exits_0
    (argc : Z) (argv : list string) (w : World)
    (argc' : Z) (pre post : list string) (a : string) (w' : World) :
  fst (GDAL_CHECK_VERSION (hd_error argv) w) = true ->
  OGRGeneralCmdLineProcessor argc argv (registered argc argv w)
  = ((argc', Some (pre ++ a :: post)%list), w') ->
  1 <= argc' ->
  no_switch_in pre = true ->
  EQUAL a "--utility_version" = false ->
  EQUAL a "--help" = true ->
  let r := run_program argc argv w in
  exit_code r = 0
  /\ world (snd r) = w'
  /\ stdout_text (events r) = [usage_text]
  /\ stderr_text (events r) = []
  /\ open_calls (events r) = []
  /\ probes (events r) = [].
Proof.
  intros Hcheck Hproc Hargc Hpre Hv Hh r. subst r.
  rewrite (run_program_first_switch _ _ _ _ _ _ Hcheck Hproc Hargc Hpre
             (or_intror Hh)).
  rewrite Hv. unfold events, exit_code. cbn -[usage_text].
  rewrite sprintf_usage_text. auto 7.
Qed.

(** X3.  When the first switch among the arguments is
    [--utility_version], [main] makes one [printf]: the program name
    [argv[0]], the release it was compiled against and the release it
    runs against, with a line end after them.  Standard output then
    holds one line end more than those three strings have, so exactly
    one line when none of them has a line end in it.  The status is 0
    and nothing is parsed or opened.  This holds also when the same
    argument passes for [--help]. *)
Theorem utility_version_prints_releases_and_exits_0
    (argc : Z) (argv : list string) (w : World)
    (argc' : Z) (pre post : list string) (a : string) (w' : World) :
  fst (GDAL_CHECK_VERSION (hd_error argv) w) = true ->
  OGRGeneralCmdLineProcessor argc argv (registered argc argv w)
  = ((argc', Some (pre ++ a :: post)%list), w') ->
  1 <= argc' ->
  no_switch_in pre = true ->
  EQUAL a "--utility_version" = true ->
  let running := GDALVersionInfo "RELEASE_NAME" w' in
  let r := run_program argc argv w in
  exit_code r = 0
  /\ world (snd r) = snd running
  /\ stdout_text (events r)
     = [hd a pre ++ " was compiled against GDAL " ++ GDAL_RELEASE_NAME
        ++ " and is running against GDAL " ++ fst running ++ LF]
  /\ stderr_text (events r) = []
  /\ open_calls (events r) = []
  /\ probes (events r) = []
  /\ line_ends (stdout_text (events r))
     = S (count_LF (hd a pre) + count_LF GDAL_RELEASE_NAME
          + count_LF (fst running))
  /\ (count_LF (hd a pre) = 0%nat ->
      count_LF GDAL_RELEASE_NAME = 0%nat ->
      count_LF (fst running) = 0%nat ->
      line_ends (stdout_text (events r)) = 1%nat).
Proof.
  intros Hcheck Hproc Hargc Hpre Hv running r. subst r running.
  rewrite (run_program_first_switch _ _ _ _ _ _ Hcheck Hproc Hargc Hpre
             (or_introl Hv)).
  rewrite Hv. unfold events, exit_code.
  cbn [fst snd trace world stdout_text stderr_text open_calls probes
       flat_map app].
  rewrite line_ends_utility_version.
  repeat split; auto. intros H0 H1 H2. rewrite H0, H1, H2. reflexivity.
Qed.

(** X4.  When no argument is a switch and the option parser returns
    null, the usage text goes to standard error and nothing else is
    printed; the status is 1 and nothing is opened. *)
Theorem refused_options_print_usage
    (argc : Z) (argv : list string) (w : World)
    (argc' : Z) (args : option (list string)) (w' : World)
    (ob : GDALVectorInfoOptionsForBinary) (w'' : World) :
  fst (GDAL_CHECK_VERSION (hd_error argv) w) = true ->
  OGRGeneralCmdLineProcessor argc argv (registered argc argv w)
  = ((argc', args), w') ->
  1 <= argc' ->
  no_switch_args args = true ->
  GDALVectorInfoOptionsNew (tl (CSLAddString args "-stdout")) w'
  = ((None, ob), w'') ->
  let r := run_program argc argv w in
  exit_code r = 1
  /\ world (snd r) = w''
  /\ stderr_text (events r) = [usage_text]
  /\ stdout_text (events r) = []
  /\ open_calls (events r) = []
  /\ probes (events r) = [].
Proof.
  intros Hcheck Hproc Hargc Hargs Hparse r. subst r.
  rewrite (run_program_parses _ _ _ Hcheck Hproc Hargc Hargs), Hparse.
  unfold events, exit_code. cbn -[usage_text].
  rewrite sprintf_usage_text. auto 7.
Qed.

(** X5.  When the options are parsed and name no data source, standard
    error gets the usage text and then the failure line "No datasource
    specified."; the status is 1 and nothing is opened. *)
Theorem missing_datasource_is_a_failure
    (argc : Z) (argv : list string) (w : World)
    (argc' : Z) (args : option (list string)) (w' : World)
    (po : GDALVectorInfoOptions) (ob : GDALVectorInfoOptionsForBinary)
    (w'' : World) :
  fst (GDAL_CHECK_VERSION (hd_error argv) w) = true ->
  OGRGeneralCmdLineProcessor argc argv (registered argc argv w)
  = ((argc', args), w') ->
  1 <= argc' ->
  no_switch_args args = true ->
  GDALVectorInfoOptionsNew (tl (CSLAddString args "-stdout")) w'
  = ((Some po, ob), w'') ->
  empty (osFilename ob) = true ->
  let r := run_program argc argv w in
  exit_code r = 1
  /\ world (snd r) = w''
  /\ stderr_text (events r)
     = [usage_text; LF ++ "FAILURE: No datasource specified." ++ LF]
  /\ stdout_text (events r) = []
  /\ open_calls (events r) = []
  /\ probes (events r) = [].
Proof.
  intros Hcheck Hproc Hargc Hargs Hparse Hname r. subst r.
  rewrite (run_program_parses _ _ _ Hcheck Hproc Hargc Hargs), Hparse.
  cbn [fst snd]. rewrite Hname.
  unfold events, exit_code. cbn -[usage_text].
  rewrite sprintf_usage_text. auto 7.
Qed.

(** X6.  When no argument is a switch and the parsed options name a
    data source, the run of the program is the run of the
    open-and-report block on those options, in the world the parser
    left: same events, same exit status, same final world.  The parser
    is given the arguments after [argv[0]] of the list with [-stdout]
    added. *)
Theorem program_runs_the_block
    (argc : Z) (argv : list string) (w : World)
    (argc' : Z) (args : option (list string)) (w' : World)
    (po : GDALVectorInfoOptions) (ob : GDALVectorInfoOptionsForBinary)
    (w'' : World) :
  fst (GDAL_CHECK_VERSION (hd_error argv) w) = true ->
  OGRGeneralCmdLineProcessor argc argv (registered argc argv w)
  = ((argc', args), w') ->
  1 <= argc' ->
  no_switch_args args = true ->
  GDALVectorInfoOptionsNew (tl (CSLAddString args "-stdout")) w'
  = ((Some po, ob), w'') ->
  empty (osFilename ob) = false ->
  run_program argc argv w = run ob po w''.
Proof.
  intros Hcheck Hproc Hargc Hargs Hparse Hname.
  rewrite (run_program_parses _ _ _ Hcheck Hproc Hargc Hargs), Hparse.
  cbn [fst snd]. rewrite Hname. reflexivity.
Qed.

(** X7.  The program never probes or opens an empty data source name,
    and all the probes and opens of a run are on one and the same
    name. *)
Theorem never_opens_an_empty_name
    (argc : Z) (argv : list string) (w : World) :
  let t := events (run_program argc argv w) in
  (forall c, In c (open_calls t) -> empty (oc_path c) = false)
  /\ (forall p, In p (probes t) -> empty (fst (fst p)) = false)
  /\ (forall c c', In c (open_calls t) -> In c' (open_calls t) ->
                   oc_path c = oc_path c')
  /\ (forall c p, In c (open_calls t) -> In p (probes t) ->
                  fst (fst p) = oc_path c).
Proof.
  cbn zeta.
  destruct (run_program_cases argc argv w)
    as [[Hev _]|[[_ (fmt & args & Hev)]|[[_ [Hev|Hev]]
       |(o & po & w' & Hname & Hrun)]]].
  1-4: rewrite Hev; cbn; repeat split; intros; contradiction.
  rewrite Hrun. repeat split.
  - intros c Hc.
    rewrite (open_calls_on_the_data_source _ _ _ _ Hc). exact Hname.
  - intros p Hp.
    rewrite (probes_on_the_data_source _ _ _ _ Hp). exact Hname.
  - intros c c' Hc Hc'.
    rewrite (open_calls_on_the_data_source _ _ _ _ Hc),
            (open_calls_on_the_data_source _ _ _ _ Hc'). reflexivity.
  - intros c p Hc Hp.
    rewrite (open_calls_on_the_data_source _ _ _ _ Hc),
            (probes_on_the_data_source _ _ _ _ Hp). reflexivity.
Qed.

(** X8.  The exit status is 0 or 1, unless the general processor
    returned less than 1, when it is that value negated. *)
Theorem program_exit_status
    (argc : Z) (argv : list string) (w : World) :
  let r := run_program argc argv w in
  let returned :=
    fst (fst (OGRGeneralCmdLineProcessor argc argv
                (registered argc argv w))) in
  exit_code r = 0
  \/ exit_code r = 1
  \/ (returned < 1 /\ exit_code r = - returned /\ events r = []).
Proof.
  cbn zeta.
  destruct (run_program_cases argc argv w)
    as [[Hev [H1|[Hlt Hst]]]|[[H0 _]|[[H1 _]
       |(o & po & w' & Hname & Hrun)]]]; auto.
  rewrite Hrun. destruct (block_exit_status o po w') as [[H0 _]|H1]; auto.
Qed.

(** X9.  Whenever [main] writes to standard error the exit status is 1,
    and a run with status 0 has written nothing there. *)
Theorem stderr_means_status_1
    (argc : Z) (argv : list string) (w : World) :
  let r := run_program argc argv w in
  (stderr_text (events r) <> [] -> exit_code r = 1)
  /\ (exit_code r = 0 -> stderr_text (events r) = []).
Proof.
  cbn zeta.
  assert (H : stderr_text (events (run_program argc argv w)) = []
              \/ exit_code (run_program argc argv w) = 1).
  { destruct (run_program_cases argc argv w)
      as [[Hev _]|[[_ (fmt & args & Hev)]|[[H1 _]
         |(o & po & w' & Hname & Hrun)]]]; auto.
    - left. rewrite Hev. reflexivity.
    - left. rewrite Hev. reflexivity.
    - rewrite Hrun.
      destruct (block_exit_status o po w') as [[_ Hclean]|H1]; auto. }
  split.
  - intros Hwritten. destruct H as [Hclean|H1]; congruence.
  - intros H0. destruct H as [Hclean|H1]; [exact Hclean | congruence].
Qed.

End ProgramProperties.

(** ** The properties at concrete runs *)

(** X2 on [ogrinfo ro.gpkg --HELP]. *)
Lemma help_prints_usage_and_exits_0_witness :
  let argv := ["ogrinfo"; "ro.gpkg"; "--HELP"] in
  (equal_nocase "--HELP" "--utility_version" = false
   /\ equal_nocase "--HELP" "--help" = true)
  /\ exit_code (ogrinfo_on_read_only_mount argv) = 0
  /\ world (snd (ogrinfo_on_read_only_mount argv)) = 4%nat
  /\ stdout_text (events (ogrinfo_on_read_only_mount argv)) = [usage_text].
Proof.
  split; [split; reflexivity|].
  destruct (@help_prints_usage_and_exits_0 gdal_h read_only_mount
              (toy_startup true read_only_only true)
              3 ["ogrinfo"; "ro.gpkg"; "--HELP"] 0%nat
              3 ["ogrinfo"; "ro.gpkg"] [] "--HELP" 4%nat
              eq_refl eq_refl ltac:(lia) eq_refl eq_refl eq_refl)
    as (Hexit & Hworld & Hout & _).
  exact (conj Hexit (conj Hworld Hout)).
Defined.

(** X3 on [ogrinfo --utility_version --help]. *)
Lemma utility_version_prints_releases_and_exits_0_witness :
  let argv := ["ogrinfo"; "--utility_version"; "--help"] in
  equal_nocase "--utility_version" "--utility_version" = true
  /\ exit_code (ogrinfo_on_read_only_mount argv) = 0
  /\ stdout_text (events (ogrinfo_on_read_only_mount argv))
     = ["ogrinfo was compiled against GDAL 3.8.0"
        ++ " and is running against GDAL 3.8.0" ++ LF].
Proof.
  split; [reflexivity|].
  destruct (@utility_version_prints_releases_and_exits_0 gdal_h
              read_only_mount (toy_startup true read_only_only true)
              3 ["ogrinfo"; "--utility_version"; "--help"] 0%nat
              3 ["ogrinfo"] ["--help"] "--utility_version" 4%nat
              eq_refl eq_refl ltac:(lia) eq_refl eq_refl)
    as (Hexit & _ & Hout & _).
  exact (conj Hexit Hout).
Defined.

(** X4 on [ogrinfo -zz]. *)
Lemma refused_options_print_usage_witness :
  let argv := ["ogrinfo"; "-zz"] in
  toy_parse ["-zz"; "-stdout"] default_options = None
  /\ exit_code (ogrinfo_on_read_only_mount argv) = 1
  /\ stderr_text (events (ogrinfo_on_read_only_mount argv)) = [usage_text].
Proof.
  split; [reflexivity|].
  destruct (@refused_options_print_usage gdal_h read_only_mount
              (toy_startup true read_only_only true)
              2 ["ogrinfo"; "-zz"] 0%nat
              2 (Some ["ogrinfo"; "-zz"]) 4%nat default_options 5%nat
              eq_refl eq_refl ltac:(lia) eq_refl eq_refl)
    as (Hexit & _ & Herr & _).
  exact (conj Hexit Herr).
Defined.

(** X5 on [ogrinfo -q]. *)
Lemma missing_datasource_is_a_failure_witness :
  let argv := ["ogrinfo"; "-q"] in
  toy_parse ["-q"; "-stdout"] default_options
  = Some (set_bVerbose false default_options)
  /\ exit_code (ogrinfo_on_read_only_mount argv) = 1
  /\ stderr_text (events (ogrinfo_on_read_only_mount argv))
     = [usage_text; LF ++ "FAILURE: No datasource specified." ++ LF].
Proof.
  split; [reflexivity|].
  destruct (@missing_datasource_is_a_failure gdal_h read_only_mount
              (toy_startup true read_only_only true)
              2 ["ogrinfo"; "-q"] 0%nat
              2 (Some ["ogrinfo"; "-q"]) 4%nat tt
              (set_bVerbose false default_options) 5%nat
              eq_refl eq_refl ltac:(lia) eq_refl eq_refl eq_refl)
    as (Hexit & _ & Herr & _).
  exact (conj Hexit Herr).
Defined.

(** X6 on [ogrinfo -sql "SELECT 1" ro.gpkg]. *)
Lemma program_runs_the_block_witness :
  let argv := ["ogrinfo"; "-sql"; "SELECT 1"; "ro.gpkg"] in
  let o := options "ro.gpkg" true false false "SELECT 1" [] in
  toy_parse ["-sql"; "SELECT 1"; "ro.gpkg"; "-stdout"] default_options
  = Some o
  /\ ogrinfo_on_read_only_mount argv
     = @run gdal_h read_only_mount o tt 5%nat.
Proof.
  split; [reflexivity|].
  exact (@program_runs_the_block gdal_h read_only_mount
           (toy_startup true read_only_only true)
           4 ["ogrinfo"; "-sql"; "SELECT 1"; "ro.gpkg"] 0%nat
           4 (Some ["ogrinfo"; "-sql"; "SELECT 1"; "ro.gpkg"]) 4%nat tt
           (options "ro.gpkg" true false false "SELECT 1" []) 5%nat
           eq_refl eq_refl ltac:(lia) eq_refl eq_refl eq_refl).
Defined.

(** X13 on the read-only retry of the read-only mount. *)
Lemma retry_only_after_failed_primary_witness :
  let o := no_switch "ro.gpkg" "SELECT 1" true in
  let t := events (run_in read_only_mount o) in
  let c2 := @Build_OpenCall read_only_mount RetryReadOnly "ro.gpkg" 0x04
              ["LIST_ALL_TABLES=YES"] (Some ("ro.gpkg", 0x04)) in
  In c2 (fallbacks t)
  /\ intent o = Some Unspecified
  /\ exists c1, hd_error (open_calls t) = Some c1 /\ oc_result c1 = None.
Proof.
  split; [left; reflexivity|].
  destruct (@retry_only_after_failed_primary gdal_h read_only_mount
              (no_switch "ro.gpkg" "SELECT 1" true) tt 0%nat _
              (or_introl eq_refl))
    as (Hintent & Hprimary & _).
  exact (conj Hintent Hprimary).
Defined.

(** X14 on the unrecognized path. *)
Lemma unrecognized_source_runs_as_read_only_witness :
  let o := no_switch "unknown.bin" "" true in
  (intent o = Some Unspecified /\ empty (osSQLStatement o) = true)
  /\ events (run_in unrecognized o)
     = EvIdentify "unknown.bin" 0x04 false
       :: events (@run gdal_h unrecognized (set_bReadOnly true o) tt 1%nat).
Proof.
  split; [split; reflexivity|].
  exact (proj2 (proj2
    (@unrecognized_source_runs_as_read_only gdal_h unrecognized
       (no_switch "unknown.bin" "" true) tt 0%nat
       eq_refl eq_refl eq_refl))).
Defined.

(** X15 on a source that opens in either mode. *)
Lemma statement_run_is_update_run_when_open_succeeds_witness :
  let o := no_switch "a.shp" "SELECT 1" true in
  (intent o = Some Unspecified /\ empty (osSQLStatement o) = false)
  /\ run_in plain_source o = run_in plain_source (set_bUpdate true o).
Proof.
  split; [split; reflexivity|].
  exact (@statement_run_is_update_run_when_open_succeeds gdal_h plain_source
           (no_switch "a.shp" "SELECT 1" true) tt 0%nat
           eq_refl eq_refl ltac:(cbn; discriminate)).
Defined.
